(** * H3 checkpoint conversion: the state-dict rewriting of
    [convert_h3_original_to_pytorch.py], embedded and verified.

    The script loads a checkpoint (a Python [dict] from parameter names to
    tensors), optionally unwraps a PyTorch-Lightning wrapper, shifts the
    layer-norm parameters of a legacy layout by one position, renames every
    key, and finally compares a slice of logits with reference values.

    Python strings are [string]; a [dict] with string keys is a
    [gmap string V]; a raised exception is a constructor of [result]. *)

From Stdlib Require Import Ascii String ZArith QArith Lia.
From stdpp Require Import base tactics option list gmap strings pretty fin_maps.

Local Open Scope Z_scope.

(** Let [simpl] compute [+:+] on a string that starts with a literal. *)
#[local] Arguments String.append !_ _ : simpl nomatch.

(** ** Python string operations used by the script *)

Module PyStr.

(** [s.startswith(p)] *)
Fixpoint startswith (s p : string) {struct p} : bool :=
  match p, s with
  | EmptyString, _ => true
  | String _ _, EmptyString => false
  | String a p', String b s' => if Ascii.eqb a b then startswith s' p' else false
  end.

(** [p in s]: [p] occurs in [s] as a substring. *)
Fixpoint contains (p s : string) : bool :=
  startswith s p ||
  match s with
  | EmptyString => false
  | String _ s' => contains p s'
  end.

(** [s[n:]] *)
Fixpoint slice_from (n : nat) (s : string) : string :=
  match n, s with
  | O, _ => s
  | S _, EmptyString => EmptyString
  | S n', String _ s' => slice_from n' s'
  end.

(** [c in s] for a single character. *)
Fixpoint has_char (c : ascii) (s : string) : bool :=
  match s with
  | EmptyString => false
  | String a s' => Ascii.eqb c a || has_char c s'
  end.

(** The scan of [str.replace] for a non-empty [old]: occurrences are found
    from the left and do not overlap; [skip] counts the characters of a
    matched occurrence that are still to be passed over. *)
Fixpoint replace_go (old new : string) (skip : nat) (s : string) : string :=
  match s with
  | EmptyString => EmptyString
  | String c s' =>
      match skip with
      | S k => replace_go old new k s'
      | O =>
          if startswith s old
          then new +:+ replace_go old new (String.length old - 1) s'
          else String c (replace_go old new 0 s')
      end
  end.

(** With an empty [old], Python puts [new] before every character and at the
    end. *)
Fixpoint interleave (new s : string) : string :=
  match s with
  | EmptyString => new
  | String c s' => new +:+ String c (interleave new s')
  end.

(** [s.replace(old, new)] *)
Definition replace (s old new : string) : string :=
  match old with
  | EmptyString => interleave new s
  | String _ _ => replace_go old new 0 s
  end.

(** The non-empty suffixes of a string, longest first. *)
Fixpoint suffixes (s : string) : list string :=
  match s with
  | EmptyString => []
  | String _ s' => s :: suffixes s'
  end.

End PyStr.

Import PyStr.

(** ** Exceptions *)

Inductive exn :=
  | KeyError (key : string)
  | UnboundLocalError (var : string)
  | AttributeError (attr : string)
  | AssertionError.

Inductive result (A : Type) :=
  | Ok (a : A)
  | Raise (e : exn).
Arguments Ok {A} a.
Arguments Raise {A} e.

Global Instance result_ret : MRet result := fun A a => Ok a.
Global Instance result_bind : MBind result := fun A B f m =>
  match m with
  | Ok a => f a
  | Raise e => Raise e
  end.

(** ** [rename_key] (lines 63-71) *)

Definition rename_key (name : string) : string :=
  let name :=
    if contains "backbone.embeddings" name
    then replace name "backbone" "h3" else name in
  let name :=
    if contains "backbone.layers" name
    then replace name "backbone.layers" "h3.blocks" else name in
  let name :=
    if contains "backbone.ln_f" name
    then replace name "backbone.ln_f" "h3.final_layernorm" else name in
  name.

(** ** [get_h3_config] (lines 29-60)

    [H3Config] is the configuration class of the library; the script only
    passes it four keyword arguments and later reads [num_hidden_layers], so it
    is a record of these four fields. *)

Record H3Config := {
  hidden_size : Z;
  num_hidden_layers : Z;
  num_attention_heads : Z;
  attn_layer_idx : list Z;
}.

(** The four locals are assigned together in one branch of the [if]/[elif]
    chain or not at all; reading the first of them unassigned raises
    [UnboundLocalError]. *)
Definition get_h3_config (model_name : string) : result H3Config :=
  let locals : option (Z * Z * Z * list Z) :=
    if String.eqb model_name "H3-125m" then Some (768, 12, 12, [6])
    else if String.eqb model_name "H3-355m" then Some (1024, 24, 16, [8; 16])
    else if String.eqb model_name "H3-1.3b" then Some (2048, 24, 16, [8; 16])
    else if String.eqb model_name "H3-2.7b" then Some (2560, 32, 20, [8; 16; 24])
    else None in
  match locals with
  | Some (hidden_size, num_hidden_layers, num_attention_heads, attn_layer_idx) =>
      Ok {| hidden_size := hidden_size;
            num_hidden_layers := num_hidden_layers;
            num_attention_heads := num_attention_heads;
            attn_layer_idx := attn_layer_idx |}
  | None => Raise (UnboundLocalError "hidden_size")
  end.

(** ** Dictionaries *)

Section StateDict.
Context {V : Type}.

(** [key in d] *)
Definition dict_in (key : string) (d : gmap string V) : bool :=
  bool_decide (is_Some (d !! key)).

(** [d.pop(key)]: the value and the dict without the key, or [KeyError]. *)
Definition pop (key : string) (d : gmap string V) : result (V * gmap string V) :=
  match d !! key with
  | Some v => Ok (v, delete key d)
  | None => Raise (KeyError key)
  end.

(** A [gmap] has no insertion order, so wherever the script iterates over a
    dict the order of iteration is an argument: any list that holds every key
    of the dict exactly once. *)
Definition enumerates (ks : list string) (d : gmap string V) : Prop :=
  NoDup ks /\ forall k, k ∈ ks <-> is_Some (d !! k).

(** ** [convert_state_dict] (lines 74-79)

    [keys] is [orig_state_dict.copy().keys()], taken before the loop starts;
    the loop pops and inserts in the dict itself. *)
Fixpoint convert_state_dict (keys : list string) (orig_state_dict : gmap string V)
  : result (gmap string V) :=
  match keys with
  | [] => Ok orig_state_dict
  | key :: keys =>
      '(val, orig_state_dict) ← pop key orig_state_dict;
      convert_state_dict keys (<[rename_key key := val]> orig_state_dict)
  end.

(** What the spec compares the loop with: every entry [(key, val)] becomes
    [(rename_key key, val)], independently of the others. *)
Definition rename_entries (d : gmap string V) : gmap string V :=
  list_to_map (prod_map rename_key id <$> map_to_list d).

(** ** The layer-norm update (lines 104-123) *)

(** [f"backbone.layers.{l}{suffix}"] *)
Definition layer_key (l : Z) (suffix : string) : string :=
  "backbone.layers." +:+ pretty l +:+ suffix.

(** The body of the loop at lines 111-119. *)
Definition shift_layer (l : Z) (state_dict : gmap string V)
  : result (gmap string V) :=
  '(ln_weight, state_dict) ← pop (layer_key l ".norm1.weight") state_dict;
  '(ln_bias, state_dict) ← pop (layer_key l ".norm1.bias") state_dict;
  let state_dict := <[layer_key l ".norm2.weight" := ln_weight]> state_dict in
  let state_dict := <[layer_key l ".norm2.bias" := ln_bias]> state_dict in
  if bool_decide (l > 0) then
    '(ln_weight, state_dict) ← pop (layer_key (l - 1) ".norm2.weight") state_dict;
    '(ln_bias, state_dict) ← pop (layer_key (l - 1) ".norm2.bias") state_dict;
    let state_dict := <[layer_key l ".norm1.weight" := ln_weight]> state_dict in
    let state_dict := <[layer_key l ".norm1.bias" := ln_bias]> state_dict in
    Ok state_dict
  else Ok state_dict.

(** [for l in reversed(range(n)): ...] with [n] the number of indices left:
    the next index is [n - 1]. *)
Fixpoint shift_layers (n : nat) (state_dict : gmap string V)
  : result (gmap string V) :=
  match n with
  | O => Ok state_dict
  | S l =>
      state_dict ← shift_layer (Z.of_nat l) state_dict;
      shift_layers l state_dict
  end.

(** Lines 105-123, the body of [if "backbone.ln_0.weight" in state_dict]. *)
Definition reindex_norms (n_layers : Z) (state_dict : gmap string V)
  : result (gmap string V) :=
  '(ln_weight, state_dict) ← pop (layer_key (n_layers - 1) ".norm2.weight") state_dict;
  '(ln_bias, state_dict) ← pop (layer_key (n_layers - 1) ".norm2.bias") state_dict;
  let state_dict := <["backbone.ln_f.weight" := ln_weight]> state_dict in
  let state_dict := <["backbone.ln_f.bias" := ln_bias]> state_dict in
  state_dict ← shift_layers (Z.to_nat n_layers) state_dict;
  '(ln_weight, state_dict) ← pop "backbone.ln_0.weight" state_dict;
  '(ln_bias, state_dict) ← pop "backbone.ln_0.bias" state_dict;
  let state_dict := <["h3.blocks.0.norm1.weight" := ln_weight]> state_dict in
  let state_dict := <["h3.blocks.0.norm1.bias" := ln_bias]> state_dict in
  Ok state_dict.

(** Lines 104-123: the update runs only on a dict that has the key of the
    legacy layout. *)
Definition update_state_dict (config : H3Config) (state_dict : gmap string V)
  : result (gmap string V) :=
  if dict_in "backbone.ln_0.weight" state_dict
  then reindex_norms (num_hidden_layers config) state_dict
  else Ok state_dict.

(** Lines 101-125: configuration, update, renaming. [keys] tells how to
    enumerate the keys of the dict that reaches [convert_state_dict]. *)
Definition rewrite_state_dict (keys : gmap string V -> list string)
    (model_name : string) (state_dict : gmap string V) : result (gmap string V) :=
  config ← get_h3_config model_name;
  state_dict ← update_state_dict config state_dict;
  convert_state_dict (keys state_dict) state_dict.

End StateDict.

(** ** The loaded checkpoint (lines 97-99)

    [torch.load] gives a dict whose values are tensors or, in a Lightning
    checkpoint, also strings and nested dicts. *)

Set Warnings "-register-all".

Inductive pyobj (T : Type) :=
  | Tensor (t : T)
  | Str (s : string)
  | Dict (d : gmap string (pyobj T)).
Arguments Tensor {T} t.
Arguments Str {T} s.
Arguments Dict {T} d.

Section Loader.
Context {T : Type}.

(** [{k[len("model."):]: v for k, v in d.items() if k.startswith("model.")}],
    the items taken in the order [keys]. *)
Definition strip_model_prefix (keys : list string) (d : gmap string (pyobj T))
  : gmap string (pyobj T) :=
  foldl (fun acc k =>
           match d !! k with
           | Some v =>
               if startswith k "model."
               then <[slice_from (String.length "model.") k := v]> acc
               else acc
           | None => acc
           end) ∅ keys.

(** Lines 98-99. Subscripting with a missing key raises [KeyError]; a value
    that is no dict has no [items]. *)
Definition unwrap_lightning (keys : gmap string (pyobj T) -> list string)
    (state_dict : gmap string (pyobj T)) : result (gmap string (pyobj T)) :=
  if dict_in "pytorch-lightning_version" state_dict then
    match state_dict !! "state_dict" with
    | None => Raise (KeyError "state_dict")
    | Some (Dict d) => Ok (strip_model_prefix (keys d) d)
    | Some _ => Raise (AttributeError "items")
    end
  else Ok state_dict.

End Loader.

(** ** The comparison of logits (lines 142-147)

    The forward pass and [torch.allclose] belong to the library: [logits] is
    the slice [logits[0, 0, :3]] and [allclose input other atol] stands for
    [torch.allclose(input, other, atol=atol)]. *)

Section Verifier.
Context {Logits : Type}.
Variable allclose : Logits -> list (list Q) -> Q -> bool.

Definition verify_logits (model_name : string) (logits : Logits) : result unit :=
  let expected_slice : option (list (list Q)) :=
    if String.eqb model_name "H3-125m" then Some [[5.9570; 7.0703; 4.4727]%Q]
    else if String.eqb model_name "H3-355m" then Some [[4.5926; 6.2018; 4.6021]%Q]
    else None in
  if bool_decide (model_name ∈ ["H3-125m"; "H3-355m"]) then
    match expected_slice with
    | Some expected_slice =>
        if allclose logits expected_slice 1e-2%Q then Ok tt
        else Raise AssertionError
    | None => Raise (UnboundLocalError "expected_slice")
    end
  else Ok tt.

End Verifier.

(** ** The tables of the driver (lines 84-96) and the command line (lines 171-177) *)

(** [d[key]] *)
Definition getitem {V : Type} (key : string) (d : gmap string V) : result V :=
  match d !! key with
  | Some v => Ok v
  | None => Raise (KeyError key)
  end.

Definition model_name_to_repo_id : gmap string string :=
  list_to_map [("H3-125m", "danfu09/H3-125M");
               ("H3-355m", "danfu09/H3-355M");
               ("H3-1.3b", "danfu09/H3-1.3B");
               ("H3-2.7b", "danfu09/H3-2.7B")].

Definition model_name_to_file_name : gmap string string :=
  list_to_map [("H3-125m", "model.pt");
               ("H3-355m", "model.pt");
               ("H3-1.3b", "model.pt");
               ("H3-2.7b", "model-3attn.pt")].

(** The two arguments of [hf_hub_download] at line 96, in the order in which
    they are evaluated. *)
Definition checkpoint_location (model_name : string) : result (string * string) :=
  repo_id ← getitem model_name model_name_to_repo_id;
  filename ← getitem model_name model_name_to_file_name;
  Ok (repo_id, filename).

(** The [choices] of [--model_name]. *)
Definition model_name_choices : list string :=
  ["H3-125m"; "H3-355m"; "H3-1.3b"; "H3-2.7b"].

(** Lines 84-125 of [convert_h3_checkpoint_to_pytorch]. Downloading and
    [torch.load] belong to the libraries: [fetch repo_id filename] is what
    they give for a repository and a file name, a dict or an exception.
    [items] and [keys] enumerate the dicts that the comprehension and
    [convert_state_dict] iterate over. *)
Definition convert_h3_state_dict {T : Type}
    (fetch : string -> string -> result (gmap string (pyobj T)))
    (items keys : gmap string (pyobj T) -> list string)
    (model_name : string) : result (gmap string (pyobj T)) :=
  '(repo_id, filename) ← checkpoint_location model_name;
  state_dict ← fetch repo_id filename;
  state_dict ← unwrap_lightning items state_dict;
  rewrite_state_dict keys model_name state_dict.

(** ** Auxiliary definitions for the proofs *)

(** [clash_free new q]: the replacement text [new] starts with a character
    that [q] does not have, and no non-empty suffix of [new] is a prefix of
    [q] or has [q] as a prefix. Then no occurrence of [q] can begin inside a
    copy of [new] or run into one. *)
Definition clash_free (new q : string) : bool :=
  match new with
  | EmptyString => false
  | String h _ =>
      negb (has_char h q)
      && forallb (fun t => negb (startswith t q) && negb (startswith q t))
                 (suffixes new)
  end.

(** The keys of the layer-norm parameters, by field. [norm1 l x] and
    [norm2 l x] are the keys that the update formats for layer [l]; [ln_f],
    [ln_0] and [block0_norm1] are the literal keys of lines 108-109, 120-121
    and 122-123. *)
Inductive field := weight | bias.

Definition norm1 (l : Z) (x : field) : string :=
  layer_key l match x with weight => ".norm1.weight" | bias => ".norm1.bias" end.
Definition norm2 (l : Z) (x : field) : string :=
  layer_key l match x with weight => ".norm2.weight" | bias => ".norm2.bias" end.
Definition ln_f (x : field) : string :=
  match x with weight => "backbone.ln_f.weight" | bias => "backbone.ln_f.bias" end.
Definition ln_0 (x : field) : string :=
  match x with weight => "backbone.ln_0.weight" | bias => "backbone.ln_0.bias" end.
Definition block0_norm1 (x : field) : string :=
  match x with
  | weight => "h3.blocks.0.norm1.weight"
  | bias => "h3.blocks.0.norm1.bias"
  end.

Section LoopInvariant.
Context {V : Type}.

(** A dict of the legacy layout with [L] layers has both fields of both norms
    of every layer, and both fields of the norm before the first layer. *)
Definition legacy_layout (L : Z) (sd : gmap string V) : Prop :=
  (forall l x, 0 <= l < L -> is_Some (sd !! norm1 l x) /\ is_Some (sd !! norm2 l x))
  /\ forall x, is_Some (sd !! ln_0 x).

(** The dict [D] at the head of the loop of line 110 when the indices
    [j, ..., L - 1] have been handled, in terms of the dict [sd] that the
    update started from. *)
Record loop_inv (L : Z) (sd : gmap string V) (j : Z) (D : gmap string V)
  : Prop := {
  inv_done2 : forall l x, j <= l < L -> D !! norm2 l x = sd !! norm1 l x;
  inv_done1 : forall l x, j <= l < L -> 0 < l ->
    D !! norm1 l x = sd !! norm2 (l - 1) x;
  inv_todo1 : forall l x, 0 <= l < j -> D !! norm1 l x = sd !! norm1 l x;
  inv_todo2 : forall l x, 0 <= l < j - 1 -> D !! norm2 l x = sd !! norm2 l x;
  inv_hole : forall x, 0 < j -> D !! norm2 (j - 1) x = None;
  inv_first : forall x, j = 0 -> D !! norm1 0 x = None;
  inv_ln_f : forall x, D !! ln_f x = sd !! norm2 (L - 1) x;
  inv_frame : forall k,
    (forall x, k <> ln_f x) ->
    (forall l x, 0 <= l < L -> k <> norm1 l x /\ k <> norm2 l x) ->
    D !! k = sd !! k;
  inv_size : (forall x, sd !! ln_f x = None) -> size D = size sd;
}.

End LoopInvariant.

(** The keys of a dict that holds the layer norms of the legacy layout and
    nothing else, and the keys of what the update makes of it. *)
Definition is_legacy_key (L : Z) (k : string) : Prop :=
  (exists x, k = ln_0 x)
  \/ exists l x, 0 <= l < L /\ (k = norm1 l x \/ k = norm2 l x).

Definition is_shifted_key (L : Z) (k : string) : Prop :=
  (exists x, k = ln_f x \/ k = block0_norm1 x)
  \/ exists l x, 0 <= l < L /\ (k = norm2 l x \/ (0 < l /\ k = norm1 l x)).

(** [unbordered q]: no proper non-empty suffix of [q] is a prefix of [q], so
    two occurrences of [q] never overlap. *)
Definition unbordered (q : string) : bool :=
  match q with
  | EmptyString => false
  | String _ o => forallb (fun r => negb (startswith q r)) (suffixes o)
  end.

(** [split_at old s segs]: joined by [old] the stretches [segs] are [s], and
    none of them holds [old]. For an unbordered [old] they are
    [s.split(old)]. *)
Definition split_at (old s : string) (segs : list string) : Prop :=
  s = String.concat old segs
  /\ Forall (fun seg => contains old seg = false) segs.

(** [rewritten_by old new name out]: [out] is what [name.replace(old, new)]
    returns, it differs from [name], and it is the stretches of [name]
    between the occurrences of [old] joined by [new] instead. *)
Definition rewritten_by (old new name out : string) : Prop :=
  out = replace name old new
  /\ out <> name
  /\ (exists segs, split_at old name segs)
  /\ (forall segs, split_at old name segs -> out = String.concat new segs).

(** [no_clash t q]: no non-empty suffix of [t] is a prefix of [q] or has
    [q] as a prefix, so no occurrence of [q] in [t +:+ x] starts in [t]. *)
Definition no_clash (t q : string) : bool :=
  forallb (fun t' => negb (startswith t' q) && negb (startswith q t'))
          (suffixes t).

(** The keys of the layer norms in the naming of the destination. *)
Definition block_key (l : Z) (suffix : string) : string :=
  "h3.blocks." +:+ pretty l +:+ suffix.
Definition block_norm1 (l : Z) (x : field) : string :=
  block_key l match x with weight => ".norm1.weight" | bias => ".norm1.bias" end.
Definition block_norm2 (l : Z) (x : field) : string :=
  block_key l match x with weight => ".norm2.weight" | bias => ".norm2.bias" end.
Definition final_layernorm (x : field) : string :=
  match x with
  | weight => "h3.final_layernorm.weight"
  | bias => "h3.final_layernorm.bias"
  end.

(** A Lightning checkpoint made from a plain dict: every key gets the prefix
    ["model."]. *)
Definition lightning_wrap {T : Type} (version : string)
    (d : gmap string (pyobj T)) : gmap string (pyobj T) :=
  <["pytorch-lightning_version" := Str version]>
    (<["state_dict" := Dict (kmap (String.app "model.") d)]> ∅).

(** ** Example dicts

    A tensor is stood for by a name: the key it had when it was loaded. *)

Definition dict_of_keys (ks : list string) : gmap string string :=
  list_to_map ((fun k => (k, k)) <$> ks).

Definition legacy_keys (L : nat) : list string :=
  [ln_0 weight; ln_0 bias]
  ++ flat_map (fun l : Z => [norm1 l weight; norm1 l bias;
                             norm2 l weight; norm2 l bias])
              (Z.of_nat <$> seq 0 L).

(** A legacy checkpoint that has only its layer norms. *)
Definition legacy_example (L : nat) : gmap string string :=
  dict_of_keys (legacy_keys L).

(** The same without the bias of the norm before the first layer. *)
Definition legacy_example_no_bias (L : nat) : gmap string string :=
  delete "backbone.ln_0.bias" (legacy_example L).

Definition config_125m : H3Config :=
  {| hidden_size := 768; num_hidden_layers := 12;
     num_attention_heads := 12; attn_layer_idx := [6] |}.

(** A configuration with two layers, for small examples. *)
Definition config_two_layers : H3Config :=
  {| hidden_size := 8; num_hidden_layers := 2;
     num_attention_heads := 2; attn_layer_idx := [1] |}.

(** A checkpoint in the layout of the destination, apart from the names. *)
Definition plain_example : gmap string string :=
  dict_of_keys ["backbone.embeddings.word_embeddings.weight";
                "backbone.layers.0.mixer.kernel.B";
                "backbone.ln_f.weight";
                "lm_head.weight"].

(** A Lightning checkpoint. *)
Definition lightning_state : gmap string (pyobj string) :=
  list_to_map [("model.backbone.ln_f.weight", Tensor "ln_f.weight");
               ("model.lm_head.weight", Tensor "lm_head.weight");
               ("loss_fn.weight", Tensor "loss")].

Definition lightning_example : gmap string (pyobj string) :=
  list_to_map [("pytorch-lightning_version", Str "1.6.4");
               ("state_dict", Dict lightning_state)].

(** Two keys that are renamed to the same key, and one that is not. *)
Definition colliding_example : gmap string string :=
  dict_of_keys ["backbone.ln_f.weight"; "h3.final_layernorm.weight";
                "lm_head.weight"].

(** A two-layer legacy checkpoint with one more parameter. *)
Definition legacy_with_head : gmap string string :=
  <["lm_head.weight" := "lm_head.weight"]> (legacy_example 2).



(** A Lightning checkpoint as the trainer writes it, with more than the two
    keys that are read: the parameters of [plain_example], every key with
    the prefix ["model."]. *)
Definition plain_tensors : gmap string (pyobj string) := Tensor <$> plain_example.

Definition trainer_checkpoint : gmap string (pyobj string) :=
  <["epoch" := Str "3"]>
    (<["optimizer_states" := Dict ∅]>
       (lightning_wrap "1.6.4" plain_tensors)).

(** A download that gives [trainer_checkpoint] for every file. *)
Definition fetch_wrapped (repo_id filename : string)
  : result (gmap string (pyobj string)) := Ok trainer_checkpoint.

(** The keys of a dict in the order of [map_to_list]. *)
Definition keys_of {V} (d : gmap string V) : list string := (map_to_list d).*1.

(** ** Examples *)

Example rename_key_embeddings :
  rename_key "backbone.embeddings.word_embeddings.weight"
  = "h3.embeddings.word_embeddings.weight".
Proof. reflexivity. Qed.

Example rename_key_layer :
  rename_key "backbone.layers.11.mixer.kernel.B" = "h3.blocks.11.mixer.kernel.B".
Proof. reflexivity. Qed.

Example rename_key_ln_f :
  rename_key "backbone.ln_f.bias" = "h3.final_layernorm.bias".
Proof. reflexivity. Qed.

Example rename_key_other : rename_key "lm_head.weight" = "lm_head.weight".
Proof. reflexivity. Qed.

Example replace_all_occurrences : replace "aXbXXc" "X" "yy" = "ayybyyyyc".
Proof. reflexivity. Qed.

Example replace_no_overlap : replace "aaaa" "aa" "b" = "bb".
Proof. reflexivity. Qed.

Example replace_empty_old : replace "ab" EmptyString "-" = "-a-b-".
Proof. reflexivity. Qed.

(** ** Facts about the string operations *)

Module PyStrFacts.

Lemma startswith_refl_app p s : startswith (p +:+ s) p = true.
Proof.
  induction p as [|a p IH]; simpl; [done|].
  by rewrite Ascii.eqb_refl.
Qed.

Lemma startswith_split s p :
  startswith s p = true -> s = p +:+ slice_from (String.length p) s.
Proof.
  revert s; induction p as [|a p IH]; intros [|b s]; simpl; try done.
  destruct (Ascii.eqb_spec a b) as [->|]; [|done].
  intros H. f_equal. by apply IH.
Qed.

Lemma slice_from_app p s : slice_from (String.length p) (p +:+ s) = s.
Proof. induction p; simpl; auto. Qed.

Lemma startswith_app_l s a b :
  startswith s (a +:+ b) = true -> startswith s a = true.
Proof.
  revert s; induction a as [|c a IH]; intros [|d s]; simpl; try done.
  destruct (Ascii.eqb c d); [apply IH|done].
Qed.

(** A prefix [q] of [t +:+ x] lies inside [t] or reaches beyond it. *)
Lemma startswith_app_cases t x q :
  startswith (t +:+ x) q = true ->
  startswith t q = true \/ startswith q t = true.
Proof.
  revert q; induction t as [|c t IH]; intros [|d q]; simpl; auto.
  rewrite (Ascii.eqb_sym c d).
  destruct (Ascii.eqb d c); [apply IH|done].
Qed.

Lemma startswith_has_char c s p :
  startswith s p = true -> has_char c p = true -> has_char c s = true.
Proof.
  revert s; induction p as [|a p IH]; intros [|b s]; simpl; try done.
  destruct (Ascii.eqb_spec a b) as [->|]; [|done].
  intros Hs. destruct (Ascii.eqb c b); simpl; [done|]. by apply IH.
Qed.

Lemma contains_app_l a b s : contains (a +:+ b) s = true -> contains a s = true.
Proof.
  induction s as [|c s IH]; simpl.
  - rewrite !orb_false_r. apply startswith_app_l.
  - intros [H|H]%orb_true_iff.
    + by rewrite (startswith_app_l _ _ _ H).
    + rewrite (IH H). apply orb_true_r.
Qed.

Lemma contains_slice_from k q s :
  startswith (slice_from k s) q = true -> contains q s = true.
Proof.
  revert s; induction k as [|k IH]; intros s H.
  - destruct s; simpl in *; by rewrite H.
  - destruct s as [|c s]; simpl in *; [by rewrite H|].
    rewrite (IH _ H). apply orb_true_r.
Qed.

Lemma contains_occurrence q s :
  contains q s = true -> exists k, startswith (slice_from k s) q = true.
Proof.
  induction s as [|c s IH]; simpl.
  - rewrite orb_false_r. by exists O.
  - intros [H|H]%orb_true_iff; [by exists O|].
    destruct (IH H) as [k Hk]. by exists (S k).
Qed.

(** An occurrence of [q] in [t +:+ x] starts in [t] or lies in [x]. *)
Lemma contains_app_cases q t x :
  contains q (t +:+ x) = true ->
  (exists t', t' ∈ suffixes t /\ startswith (t' +:+ x) q = true)
  \/ contains q x = true.
Proof.
  induction t as [|c t IH]; simpl; [by right|].
  intros [H|H]%orb_true_iff.
  - left. exists (String c t). split; [left|done].
  - destruct (IH H) as [(t' & Hin & Ht')|Hx]; [left|by right].
    exists t'. split; [by right|done].
Qed.

Lemma has_char_app c a b :
  has_char c (a +:+ b) = has_char c a || has_char c b.
Proof. induction a as [|d a IH]; simpl; [done|]. by rewrite IH, orb_assoc. Qed.

Lemma has_char_slice_from c k s :
  has_char c (slice_from k s) = true -> has_char c s = true.
Proof.
  revert s; induction k as [|k IH]; intros [|d s]; simpl; try done.
  intros H. rewrite (IH _ H). apply orb_true_r.
Qed.

(** *** Unfolding [replace] *)

Lemma replace_go_skip old new k s :
  replace_go old new k s = replace_go old new 0 (slice_from k s).
Proof.
  revert k; induction s as [|c s IH]; intros [|k]; simpl; done.
Qed.

Lemma replace_empty a old new : replace EmptyString (String a old) new = EmptyString.
Proof. done. Qed.

Lemma replace_match c s a old new :
  startswith (String c s) (String a old) = true ->
  replace (String c s) (String a old) new
  = new +:+ replace (slice_from (String.length (String a old)) (String c s))
                    (String a old) new.
Proof.
  intros H. unfold replace. cbn [replace_go]. rewrite H.
  f_equal. rewrite replace_go_skip. simpl. by rewrite Nat.sub_0_r.
Qed.

Lemma replace_skip c s a old new :
  startswith (String c s) (String a old) = false ->
  replace (String c s) (String a old) new
  = String c (replace s (String a old) new).
Proof. intros H. unfold replace. cbn [replace_go]. by rewrite H. Qed.

(** *** [replace] creates no occurrence of a clash-free pattern *)

Lemma slice_from_length k s :
  String.length (slice_from k s) = (String.length s - k)%nat.
Proof. revert s; induction k as [|k IH]; intros [|c s]; simpl; auto. Qed.

Lemma slice_from_add j k s :
  slice_from (j + k) s = slice_from k (slice_from j s).
Proof.
  revert s; induction j as [|j IH]; intros [|c s]; simpl; auto.
  by destruct k.
Qed.

Lemma clash_free_head h r q :
  clash_free (String h r) q = true -> has_char h q = false.
Proof. intros [H _]%andb_true_iff. by apply negb_true_iff. Qed.

Lemma clash_free_suffix new q t x :
  clash_free new q = true -> t ∈ suffixes new ->
  startswith (t +:+ x) q = false.
Proof.
  destruct new as [|h r]; [done|]. intros [_ H]%andb_true_iff Ht.
  rewrite forallb_forall in H. apply list_elem_of_In, H in Ht.
  apply andb_true_iff in Ht as [H1%negb_true_iff H2%negb_true_iff].
  destruct (startswith (t +:+ x) q) eqn:E; [|done].
  apply startswith_app_cases in E as [E|E]; congruence.
Qed.

Lemma clash_free_nonempty new q : clash_free new q = true -> q <> EmptyString.
Proof.
  intros H ->. destruct new as [|h r]; [done|].
  apply andb_true_iff in H as [_ H]. by simpl in H.
Qed.

(** A prefix of the output that avoids the first character of [new] was
    copied from the input, character by character. *)
Lemma startswith_replace_inv a o h r q s :
  has_char h q = false ->
  startswith (replace s (String a o) (String h r)) q = true ->
  startswith s q = true.
Proof.
  revert s; induction q as [|c q IH]; intros s Hh; [done|].
  simpl in Hh. apply orb_false_iff in Hh as [Hc Hq].
  destruct s as [|d s]; [done|].
  destruct (startswith (String d s) (String a o)) eqn:E.
  - rewrite replace_match by done. simpl.
    by rewrite Ascii.eqb_sym, Hc.
  - rewrite replace_skip by done. simpl.
    destruct (Ascii.eqb c d); [by apply IH|done].
Qed.

Lemma startswith_replace_unmatched a o h r q s :
  q <> EmptyString -> has_char h q = false ->
  startswith (replace s (String a o) (String h r)) q = true ->
  startswith s (String a o) = false.
Proof.
  intros Hq Hh H. destruct q as [|c q]; [done|].
  destruct s as [|d s]; [done|].
  destruct (startswith (String d s) (String a o)) eqn:E; [|done].
  rewrite replace_match in H by done. simpl in H, Hh.
  apply orb_false_iff in Hh as [Hc _].
  by rewrite Ascii.eqb_sym, Hc in H.
Qed.

(** Every occurrence of a clash-free [q] in the output comes from an
    occurrence in the input at a position where [old] did not match. *)
Lemma contains_replace_inv a o new q s :
  clash_free new q = true ->
  contains q (replace s (String a o) new) = true ->
  exists k, startswith (slice_from k s) q = true
         /\ startswith (slice_from k s) (String a o) = false.
Proof.
  intros Hcf. pose proof (clash_free_nonempty _ _ Hcf) as Hq.
  remember (S (String.length s)) as n eqn:Hn.
  assert (String.length s < n)%nat as Hlt by lia. clear Hn.
  revert s Hlt; induction n as [|n IH]; intros s Hlt; [lia|].
  destruct s as [|c s].
  - simpl. rewrite orb_false_r. by destruct q.
  - destruct (startswith (String c s) (String a o)) eqn:E.
    + rewrite replace_match by done.
      intros [(t & Ht & Hpre)|Hx]%contains_app_cases.
      { by rewrite (clash_free_suffix _ _ _ _ Hcf Ht) in Hpre. }
      apply IH in Hx as (k & Hk1 & Hk2).
      * exists (String.length (String a o) + k)%nat.
        by rewrite slice_from_add.
      * rewrite slice_from_length. simpl in *. lia.
    + rewrite replace_skip by done. cbn [contains].
      intros [H|H]%orb_true_iff.
      * exists O. split; [|done]. destruct new as [|h r]; [done|].
        rewrite <-replace_skip in H by done.
        eapply startswith_replace_inv; [|done].
        by eapply clash_free_head.
      * apply IH in H as (k & Hk1 & Hk2); [|simpl in *; lia].
        by exists (S k).
Qed.

Lemma replace_removes_old a o new s :
  clash_free new (String a o) = true ->
  contains (String a o) (replace s (String a o) new) = false.
Proof.
  intros Hcf. destruct (contains _ _) eqn:E; [|done].
  apply contains_replace_inv in E as (k & Hk1 & Hk2); [congruence|done].
Qed.

Lemma replace_keeps_absent a o new q s :
  clash_free new q = true ->
  contains q s = false ->
  contains q (replace s (String a o) new) = false.
Proof.
  intros Hcf Hs. destruct (contains q (replace _ _ _)) eqn:E; [|done].
  apply contains_replace_inv in E as (k & Hk1 & _); [|done].
  apply contains_slice_from in Hk1. congruence.
Qed.

(** *** Characters that survive a [replace], and the converse *)

Lemma contains_has_char c p s :
  contains p s = true -> has_char c p = true -> has_char c s = true.
Proof.
  intros [k Hk]%contains_occurrence Hc.
  eapply has_char_slice_from, startswith_has_char; done.
Qed.

(** A character of [new] shows in the output as soon as [old] occurs. *)
Lemma replace_has_char_new c a o new s :
  contains (String a o) s = true -> has_char c new = true ->
  has_char c (replace s (String a o) new) = true.
Proof.
  intros Hs Hc. induction s as [|d s IH]; [done|].
  destruct (startswith (String d s) (String a o)) eqn:E.
  - rewrite replace_match by done. by rewrite has_char_app, Hc.
  - rewrite replace_skip by done. cbn [contains] in Hs. rewrite E in Hs.
    cbn [has_char]. rewrite IH by done. apply orb_true_r.
Qed.

(** A character outside [old] is never dropped. *)
Lemma replace_has_char_old c a o new s :
  has_char c (String a o) = false -> has_char c s = true ->
  has_char c (replace s (String a o) new) = true.
Proof.
  intros Hc. remember (S (String.length s)) as n eqn:Hn.
  assert (String.length s < n)%nat as Hlt by lia. clear Hn.
  revert s Hlt; induction n as [|n IH]; intros s Hlt Hs; [lia|].
  destruct s as [|d s]; [done|].
  destruct (startswith (String d s) (String a o)) eqn:E.
  - rewrite replace_match by done. rewrite has_char_app.
    rewrite IH; [apply orb_true_r| |].
    + rewrite slice_from_length. simpl in *. lia.
    + rewrite (startswith_split _ _ E), has_char_app, Hc in Hs. done.
  - rewrite replace_skip by done. cbn [has_char] in *.
    destruct (Ascii.eqb c d); [done|]. apply IH; [simpl in *; lia|done].
Qed.

Lemma replace_skip_inv c s a old new d t :
  startswith (String c s) (String a old) = false ->
  replace (String c s) (String a old) new = String d t ->
  c = d /\ replace s (String a old) new = t.
Proof. intros E. rewrite replace_skip by done. by intros [= -> <-]. Qed.

Lemma replace_absent a o new s :
  contains (String a o) s = false -> replace s (String a o) new = s.
Proof.
  induction s as [|d s IH]; [done|]. cbn [contains].
  intros [E Hs]%orb_false_iff. rewrite replace_skip by done.
  by rewrite IH.
Qed.

(** An output without some character of [new] is the input itself. *)
Lemma replace_inv_no_new c a o new s t :
  has_char c new = true -> has_char c t = false ->
  replace s (String a o) new = t ->
  s = t /\ contains (String a o) s = false.
Proof.
  intros Hc Ht Hrep. destruct (contains (String a o) s) eqn:E.
  - rewrite <-Hrep, (replace_has_char_new c) in Ht; done.
  - by rewrite replace_absent in Hrep.
Qed.

(** *** [replace] on the stretches between the occurrences of [old] *)

Lemma contains_cons_r q c s : contains q s = true -> contains q (String c s) = true.
Proof. intros H. cbn [contains]. rewrite H. apply orb_true_r. Qed.

Lemma contains_app_r q t x : contains q x = true -> contains q (t +:+ x) = true.
Proof.
  intros H. induction t as [|c t IH]; [done|].
  by apply (contains_cons_r q c (t +:+ x)).
Qed.

(** [replace] at an occurrence of [old]. *)
Lemma replace_app_old a o new x :
  replace (String a o +:+ x) (String a o) new
  = new +:+ replace x (String a o) new.
Proof.
  change (String a o +:+ x) with (String a (o +:+ x)).
  rewrite replace_match.
  - change (String a (o +:+ x)) with (String a o +:+ x).
    by rewrite slice_from_app.
  - change (String a (o +:+ x)) with (String a o +:+ x).
    apply startswith_refl_app.
Qed.

Lemma append_empty_r s : s +:+ EmptyString = s.
Proof. induction s as [|c s IH]; simpl; [done|]. by rewrite IH. Qed.

Lemma append_assoc s t u : (s +:+ t) +:+ u = s +:+ t +:+ u.
Proof. induction s as [|c s IH]; simpl; [done|]. by rewrite IH. Qed.

Lemma startswith_refl s : startswith s s = true.
Proof. rewrite <-(append_empty_r s) at 1. apply startswith_refl_app. Qed.

Lemma startswith_length s p :
  startswith s p = true -> (String.length p <= String.length s)%nat.
Proof.
  revert s; induction p as [|a p IH]; intros [|b s]; simpl; try done; [lia|].
  destruct (Ascii.eqb a b); [|done]. intros H%IH. lia.
Qed.

Lemma startswith_app_cancel t y r :
  startswith (t +:+ y) (t +:+ r) = startswith y r.
Proof. induction t as [|c t IH]; simpl; [done|]. by rewrite Ascii.eqb_refl. Qed.

Lemma suffixes_app u r : r <> EmptyString -> r ∈ suffixes (u +:+ r).
Proof.
  intros Hr. induction u as [|c u IH]; simpl.
  - destruct r as [|c r]; [done|]. simpl. apply elem_of_cons. by left.
  - apply elem_of_cons. by right.
Qed.

Lemma unbordered_suffix a o r :
  unbordered (String a o) = true -> r ∈ suffixes o ->
  startswith (String a o) r = false.
Proof.
  unfold unbordered. rewrite forallb_forall. intros H Hr.
  apply list_elem_of_In, H in Hr. by apply negb_true_iff.
Qed.

(** No occurrence of an unbordered [q] starts in a stretch [t] without [q]
    that is followed by [q]. *)
Lemma startswith_before_occurrence a o t x :
  unbordered (String a o) = true ->
  t <> EmptyString ->
  startswith t (String a o) = false ->
  startswith (t +:+ String a o +:+ x) (String a o) = false.
Proof.
  intros Hq Ht Hnot.
  destruct (startswith (t +:+ String a o +:+ x) (String a o)) eqn:E; [|done].
  exfalso. pose proof E as E'.
  apply startswith_app_cases in E' as [E'|E']; [congruence|].
  pose proof (startswith_split _ _ E') as Hsplit.
  pose proof (slice_from_length (String.length t) (String a o)) as Hlen.
  remember (slice_from (String.length t) (String a o)) as r eqn:Hr.
  assert (startswith (String a o +:+ x) r = true) as Er.
  { rewrite <-(startswith_app_cancel t). by rewrite <-Hsplit. }
  destruct t as [|c t]; [done|].
  apply startswith_app_cases in Er as [Er|Er].
  - destruct r as [|d r].
    + rewrite append_empty_r in Hsplit. rewrite <-Hsplit in Hnot.
      by rewrite startswith_refl in Hnot.
    + rewrite (unbordered_suffix a o (String d r)) in Er; [done..|].
      injection Hsplit as _ ->. by apply suffixes_app.
  - apply startswith_length in Er. simpl in Er, Hlen. lia.
Qed.

(** [replace] copies a stretch without [old] up to the occurrence of [old]
    that follows it. *)
Lemma replace_stretch a o new seg x :
  unbordered (String a o) = true ->
  contains (String a o) seg = false ->
  replace (seg +:+ String a o +:+ x) (String a o) new
  = seg +:+ new +:+ replace x (String a o) new.
Proof.
  intros Hq. induction seg as [|c t IH]; intros Hfree.
  - apply replace_app_old.
  - cbn [contains] in Hfree. apply orb_false_iff in Hfree as [Hc Ht].
    change (String c t +:+ String a o +:+ x)
      with (String c (t +:+ String a o +:+ x)).
    rewrite replace_skip.
    + by rewrite IH.
    + change (String c (t +:+ String a o +:+ x))
        with (String c t +:+ String a o +:+ x).
      by apply startswith_before_occurrence.
Qed.

Lemma concat_cons2 sep x y l :
  String.concat sep (x :: y :: l) = x +:+ sep +:+ String.concat sep (y :: l).
Proof. done. Qed.

Lemma concat_cons_head sep c seg rest :
  String c (String.concat sep (seg :: rest))
  = String.concat sep (String c seg :: rest).
Proof. by destruct rest. Qed.

Lemma concat_app_head sep u t rest :
  String.concat sep ((u +:+ t) :: rest) = u +:+ String.concat sep (t :: rest).
Proof.
  destruct rest as [|y l]; [done|].
  by rewrite (concat_cons2 _ (u +:+ t)), (concat_cons2 _ t), append_assoc.
Qed.

(** [s.replace(old, new)] is [new.join(segs)] when [segs] are the stretches
    of [s] between the occurrences of an unbordered [old]. *)
Lemma replace_concat a o new segs :
  unbordered (String a o) = true ->
  Forall (fun seg => contains (String a o) seg = false) segs ->
  replace (String.concat (String a o) segs) (String a o) new
  = String.concat new segs.
Proof.
  intros Hq Hsegs. induction Hsegs as [|seg segs Hseg Hsegs IH]; [done|].
  destruct segs as [|seg' segs].
  - by apply replace_absent.
  - rewrite (concat_cons2 (String a o)), (concat_cons2 new).
    rewrite replace_stretch by done. by rewrite IH.
Qed.

(** Every string has such stretches, at least one. *)
Lemma split_at_exists_cons a o s :
  exists seg rest, split_at (String a o) s (seg :: rest).
Proof.
  induction s as [|c s IH].
  - exists EmptyString, []. split; [done|]. by repeat constructor.
  - destruct IH as (seg & rest & -> & Hfree).
    apply Forall_cons in Hfree as [Hseg Hrest].
    destruct (startswith (String c seg) (String a o)) eqn:E.
    + pose proof (startswith_split _ _ E) as Hsplit.
      remember (slice_from (String.length (String a o)) (String c seg))
        as t eqn:Ht.
      exists EmptyString, (t :: rest). split.
      * rewrite concat_cons_head, Hsplit, concat_app_head.
        by rewrite (concat_cons2 _ EmptyString).
      * constructor; [done|]. constructor; [|done].
        destruct (contains (String a o) t) eqn:Et; [|done].
        injection Hsplit as _ ->.
        by rewrite (contains_app_r _ o t) in Hseg.
    + exists (String c seg), rest. split; [apply concat_cons_head|].
      constructor; [|done]. cbn [contains]. by rewrite E, Hseg.
Qed.

Lemma split_at_exists a o s : exists segs, split_at (String a o) s segs.
Proof. destruct (split_at_exists_cons a o s) as (seg & rest & H). eauto. Qed.

End PyStrFacts.

Import PyStrFacts.

(** ** [rename_key] *)

Section RenameKey.

Lemma no_backbone_no_trigger name :
  contains "backbone" name = false ->
  contains "backbone.embeddings" name = false
  /\ contains "backbone.layers" name = false
  /\ contains "backbone.ln_f" name = false.
Proof.
  intros H. repeat split.
  - destruct (contains "backbone.embeddings" name) eqn:E; [|done].
    apply (contains_app_l "backbone" ".embeddings") in E. congruence.
  - destruct (contains "backbone.layers" name) eqn:E; [|done].
    apply (contains_app_l "backbone" ".layers") in E. congruence.
  - destruct (contains "backbone.ln_f" name) eqn:E; [|done].
    apply (contains_app_l "backbone" ".ln_f") in E. congruence.
Qed.

(** No occurrence of ["backbone"] is left once the first rule has run. *)
Lemma rule1_removes_backbone name :
  contains "backbone" (replace name "backbone" "h3") = false.
Proof. by apply replace_removes_old. Qed.

(** A name with none of the three substrings is returned as it is. *)
Lemma rename_key_no_trigger name :
  contains "backbone.embeddings" name = false ->
  contains "backbone.layers" name = false ->
  contains "backbone.ln_f" name = false ->
  rename_key name = name.
Proof. unfold rename_key. by intros -> -> ->. Qed.

(** When the first test succeeds only the first rule runs. *)
Lemma rename_key_embeddings_rule name :
  contains "backbone.embeddings" name = true ->
  rename_key name = replace name "backbone" "h3".
Proof.
  intros H. unfold rename_key. rewrite H.
  destruct (no_backbone_no_trigger _ (rule1_removes_backbone name))
    as (_ & -> & ->).
  done.
Qed.

(** The result of [rename_key] has none of the three substrings. *)
Lemma rename_key_clean name :
  contains "backbone.embeddings" (rename_key name) = false
  /\ contains "backbone.layers" (rename_key name) = false
  /\ contains "backbone.ln_f" (rename_key name) = false.
Proof.
  destruct (contains "backbone.embeddings" name) eqn:E1.
  { rewrite rename_key_embeddings_rule by done.
    apply no_backbone_no_trigger, rule1_removes_backbone. }
  unfold rename_key. rewrite E1.
  set (n2 := if contains "backbone.layers" name
             then replace name "backbone.layers" "h3.blocks" else name).
  assert (contains "backbone.embeddings" n2 = false
          /\ contains "backbone.layers" n2 = false) as [H1 H2].
  { subst n2. destruct (contains "backbone.layers" name) eqn:E2; [|done].
    split; [by apply replace_keeps_absent|by apply replace_removes_old]. }
  destruct (contains "backbone.ln_f" n2) eqn:E3; [|done].
  repeat split;
    [by apply replace_keeps_absent..|by apply replace_removes_old].
Qed.

Lemma rename_key_twice name : rename_key (rename_key name) = rename_key name.
Proof.
  destruct (rename_key_clean name) as (H1 & H2 & H3).
  by apply rename_key_no_trigger.
Qed.

Lemma rename_key_layers_rule name :
  contains "backbone.embeddings" name = false ->
  contains "backbone.layers" name = true ->
  contains "backbone.ln_f" name = false ->
  rename_key name = replace name "backbone.layers" "h3.blocks".
Proof.
  intros H1 H2 H3. unfold rename_key. rewrite H1, H2.
  by rewrite replace_keeps_absent.
Qed.

Lemma rename_key_ln_f_rule name :
  contains "backbone.embeddings" name = false ->
  contains "backbone.layers" name = false ->
  contains "backbone.ln_f" name = true ->
  rename_key name = replace name "backbone.ln_f" "h3.final_layernorm".
Proof. intros H1 H2 H3. unfold rename_key. by rewrite H1, H2, H3. Qed.

(** Which keys are renamed to ["h3.blocks.0.norm1." +:+ t]: the key itself
    and ["backbone.layers.0.norm1." +:+ t], for a [t] without the characters
    [d], [f] and [3]. *)
Lemma rename_key_block0_preimage_gen t k :
  has_char "d" t = false -> has_char "f" t = false -> has_char "3" t = false ->
  rename_key k = "h3.blocks.0.norm1." +:+ t ->
  k = "h3.blocks.0.norm1." +:+ t \/ k = "backbone.layers.0.norm1." +:+ t.
Proof.
  intros Hd Hf H3 H.
  destruct (contains "backbone.embeddings" k) eqn:E1.
  { rewrite rename_key_embeddings_rule in H by done.
    assert (has_char "d" (replace k "backbone" "h3") = true) as Hc.
    { apply replace_has_char_old; [done|].
      by apply (contains_has_char _ _ _ E1). }
    rewrite H, has_char_app, Hd in Hc. done. }
  unfold rename_key in H. rewrite E1 in H.
  set (n2 := if contains "backbone.layers" k
             then replace k "backbone.layers" "h3.blocks" else k) in *.
  destruct (contains "backbone.ln_f" n2) eqn:E3.
  { assert (has_char "f" (replace n2 "backbone.ln_f" "h3.final_layernorm") = true)
      as Hc by (by apply replace_has_char_new).
    rewrite H, has_char_app, Hf in Hc. done. }
  subst n2. destruct (contains "backbone.layers" k) eqn:E2; [|by left].
  destruct k as [|c0 k]; [done|].
  destruct (startswith (String c0 k) "backbone.layers") eqn:S0.
  - right. rewrite replace_match in H by done.
    apply (inj (String.app "h3.blocks") _ (".0.norm1." +:+ t)) in H.
    apply (replace_inv_no_new "3") in H as [H _];
      [|done|by rewrite has_char_app, H3].
    by rewrite (startswith_split _ _ S0), H.
  - left.
    apply (replace_skip_inv _ _ _ _ _ "h" ("3.blocks.0.norm1." +:+ t)) in H
      as [-> H]; [|done].
    destruct k as [|c1 k]; [done|].
    destruct (startswith (String c1 k) "backbone.layers") eqn:S1.
    + rewrite replace_match in H by done. done.
    + apply (replace_skip_inv _ _ _ _ _ "3" (".blocks.0.norm1." +:+ t)) in H
        as [-> H]; [|done].
      apply (replace_inv_no_new "3") in H as [-> _];
        [done..|by rewrite has_char_app, H3].
Qed.

Lemma rename_key_block0_preimage x k :
  rename_key k = block0_norm1 x -> k = block0_norm1 x \/ k = norm1 0 x.
Proof.
  destruct x.
  - by apply (rename_key_block0_preimage_gen "weight").
  - by apply (rename_key_block0_preimage_gen "bias").
Qed.

(** The name changes when a rule applies: one of the three substrings is
    in the name and none is in the result. *)
Lemma rename_key_changes name trigger :
  trigger ∈ ["backbone.embeddings"; "backbone.layers"; "backbone.ln_f"] ->
  contains trigger name = true -> rename_key name <> name.
Proof.
  intros Hin Hname Heq.
  destruct (rename_key_clean name) as (H1 & H2 & H3).
  rewrite Heq in H1, H2, H3.
  rewrite !elem_of_cons in Hin.
  destruct Hin as [-> | [-> | [-> | Hin]]]; [congruence..|].
  by apply elem_of_nil in Hin.
Qed.

Lemma rewritten_by_replace a o new name :
  unbordered (String a o) = true ->
  rename_key name = replace name (String a o) new ->
  rename_key name <> name ->
  rewritten_by (String a o) new name (rename_key name).
Proof.
  intros Hq Hrule Hne. split; [done|]. split; [done|].
  split; [apply split_at_exists|].
  intros segs [-> Hfree]. rewrite Hrule. by apply replace_concat.
Qed.

(** C5. A key with none of the substrings ["backbone.embeddings"],
    ["backbone.layers"], ["backbone.ln_f"] is returned unchanged. A key with
    exactly one of them is rewritten by that rule alone, in one [replace]:
    the result differs from the key, and it is the key with ["h3"] in the
    place of every ["backbone"] for the embeddings, ["h3.blocks"] in the
    place of every ["backbone.layers"], ["h3.final_layernorm"] in the place
    of every ["backbone.ln_f"], the stretches between the occurrences copied
    as they are. *)
Theorem rename_key_by_pattern (name : string) :
  let embeddings := contains "backbone.embeddings" name in
  let layers := contains "backbone.layers" name in
  let ln_f := contains "backbone.ln_f" name in
  (embeddings = false -> layers = false -> ln_f = false ->
   rename_key name = name)
  /\ (embeddings = true -> layers = false -> ln_f = false ->
      rewritten_by "backbone" "h3" name (rename_key name))
  /\ (embeddings = false -> layers = true -> ln_f = false ->
      rewritten_by "backbone.layers" "h3.blocks" name (rename_key name))
  /\ (embeddings = false -> layers = false -> ln_f = true ->
      rewritten_by "backbone.ln_f" "h3.final_layernorm" name
        (rename_key name)).
Proof.
  cbv zeta. split; [apply rename_key_no_trigger|].
  split; [|split]; intros H1 H2 H3; apply rewritten_by_replace; try done.
  - by apply rename_key_embeddings_rule.
  - apply (rename_key_changes _ "backbone.embeddings"); [|done].
    rewrite !elem_of_cons. auto.
  - by apply rename_key_layers_rule.
  - apply (rename_key_changes _ "backbone.layers"); [|done].
    rewrite !elem_of_cons. auto.
  - by apply rename_key_ln_f_rule.
  - apply (rename_key_changes _ "backbone.ln_f"); [|done].
    rewrite !elem_of_cons. auto.
Qed.

(** C10. [rename_key] is idempotent, because its result never holds one of
    the three substrings that trigger a rule. *)
Theorem rename_key_idempotent (k : string) :
  rename_key (rename_key k) = rename_key k
  /\ contains "backbone.embeddings" (rename_key k) = false
  /\ contains "backbone.layers" (rename_key k) = false
  /\ contains "backbone.ln_f" (rename_key k) = false.
Proof. split; [apply rename_key_twice|apply rename_key_clean]. Qed.

End RenameKey.

(** ** The keys built by [layer_key] *)

Section LayerKeys.

Lemma pretty_N_char_no_dot (y : N) :
  (y < 10)%N -> Ascii.eqb "." (pretty_N_char y) = false.
Proof.
  intros Hy.
  assert (y = 0 \/ y = 1 \/ y = 2 \/ y = 3 \/ y = 4 \/ y = 5 \/ y = 6
          \/ y = 7 \/ y = 8 \/ y = 9)%N as Hcases by lia.
  destruct_or!; by subst.
Qed.

(** The decimal form of a number [>= 0] has no dot. *)
Lemma pretty_N_go_no_dot x s :
  has_char "." s = false -> has_char "." (pretty_N_go x s) = false.
Proof.
  revert s. induction (N.lt_wf_0 x) as [x _ IH]; intros s Hs.
  destruct (decide (x = 0)%N) as [->|Hx]; [done|].
  rewrite pretty_N_go_step by lia. apply IH.
  - apply N.div_lt; lia.
  - simpl. rewrite Hs, orb_false_r.
    apply pretty_N_char_no_dot, N.mod_lt. lia.
Qed.

Lemma pretty_Z_no_dot (l : Z) : 0 <= l -> has_char "." (pretty l) = false.
Proof.
  destruct l as [|p|p]; [done| |lia]. intros _.
  unfold pretty, pretty_Z, pretty, pretty_positive, pretty, pretty_N.
  case_decide; [done|]. by apply pretty_N_go_no_dot.
Qed.

(** Two strings without a dot, each followed by a dot and a rest, are equal
    only if the parts are. *)
Lemma dot_split_inj a b x y :
  has_char "." a = false -> has_char "." b = false ->
  a +:+ String "." x = b +:+ String "." y -> a = b /\ x = y.
Proof.
  revert b; induction a as [|c a IH]; intros [|d b]; simpl.
  - intros _ _ [= ->]. done.
  - intros _ [Hd _]%orb_false_iff [= <- _]. done.
  - intros [Hc _]%orb_false_iff _ [= -> _]. done.
  - intros [_ Ha]%orb_false_iff [_ Hb]%orb_false_iff [= -> H].
    destruct (IH _ Ha Hb H) as [-> ->]. done.
Qed.

Lemma layer_key_inj l l' s s' :
  0 <= l -> 0 <= l' ->
  layer_key l (String "." s) = layer_key l' (String "." s') ->
  l = l' /\ s = s'.
Proof.
  intros Hl Hl' H. unfold layer_key in H.
  apply (inj (String.app "backbone.layers.")) in H.
  apply dot_split_inj in H as [H ->]; auto using pretty_Z_no_dot.
  by apply (inj pretty) in H.
Qed.

Lemma layer_key_not_literal l s k :
  startswith k "backbone.layers." = false -> layer_key l s <> k.
Proof.
  intros Hk <-. unfold layer_key in Hk.
  by rewrite startswith_refl_app in Hk.
Qed.

Lemma layer_key_backbone l s : startswith (layer_key l s) "backbone." = true.
Proof. done. Qed.

Lemma layer_key_contains l s : contains "backbone.layers" (layer_key l s) = true.
Proof. done. Qed.

End LayerKeys.

(** From here on the keys are told apart by the lemmas above, not by
    computing their text. *)
#[local] Opaque layer_key.

(** ** The layer-norm update *)

(** Two keys differ: by their literal text, or by [layer_key_inj]. *)
Ltac key_neq :=
  let H := fresh in
  intros H;
  repeat match goal with x : field |- _ => destruct x end;
  unfold norm1, norm2, ln_f, ln_0, block0_norm1 in *;
  lazymatch type of H with
  | layer_key _ _ = layer_key _ _ =>
      first [ congruence
            | apply layer_key_inj in H as [? ?];
              [first [lia | discriminate]| lia | lia] ]
  | layer_key _ _ = _ =>
      first [ by apply layer_key_not_literal in H | congruence ]
  | _ = layer_key _ _ =>
      first [ by (symmetry in H; apply layer_key_not_literal in H)
            | congruence ]
  | _ => first [ congruence | discriminate H ]
  end.

(** Push a lookup through the inserts and deletes made so far. *)
Ltac dict_lookup :=
  repeat first
    [ rewrite lookup_insert_eq
    | rewrite lookup_delete_eq
    | rewrite lookup_insert_ne by key_neq
    | rewrite lookup_delete_ne by key_neq ].

Section Reindex.
Context {V : Type}.
Implicit Types (sd D : gmap string V) (l j L : Z) (x : field).

Lemma bind_Ok {A B} (a : A) (f : A -> result B) : Ok a ≫= f = f a.
Proof. done. Qed.

Lemma shift_layers_S (n : nat) D :
  shift_layers (S n) D = shift_layer (Z.of_nat n) D ≫= shift_layers n.
Proof. done. Qed.

Lemma pop_Some key D v : D !! key = Some v -> pop key D = Ok (v, delete key D).
Proof. unfold pop. by intros ->. Qed.

Lemma pop_None key D : D !! key = None -> pop key D = Raise (KeyError key).
Proof. unfold pop. by intros ->. Qed.

Lemma size_delete_S key D :
  is_Some (D !! key) -> S (size (delete key D)) = size D.
Proof.
  intros [v Hv]. rewrite <-(insert_delete_id D key v Hv) at 2.
  by rewrite map_size_insert_None by apply lookup_delete_eq.
Qed.

Ltac dict_size :=
  repeat first
    [ rewrite map_size_insert_None by (by dict_lookup)
    | rewrite size_delete_S by (dict_lookup; eauto) ].

(** One round of the loop: the two fields of [norm1 l] move to [norm2 l],
    and for [l > 0] those of [norm2 (l - 1)] move to [norm1 l]. *)
Lemma shift_layer_spec l D :
  0 <= l ->
  (forall x, is_Some (D !! norm1 l x)) ->
  (0 < l -> forall x, is_Some (D !! norm2 (l - 1) x)) ->
  exists D',
    shift_layer l D = Ok D'
    /\ (forall x, D' !! norm2 l x = D !! norm1 l x)
    /\ (0 < l -> forall x,
          D' !! norm1 l x = D !! norm2 (l - 1) x
          /\ D' !! norm2 (l - 1) x = None)
    /\ (l = 0 -> forall x, D' !! norm1 l x = None)
    /\ (forall k,
          (forall x, k <> norm1 l x /\ k <> norm2 l x) ->
          (0 < l -> forall x, k <> norm2 (l - 1) x) ->
          D' !! k = D !! k)
    /\ ((forall x, D !! norm2 l x = None) -> size D' = size D).
Proof.
  intros Hl Hcur Hprev.
  destruct (Hcur weight) as [vw Hw], (Hcur bias) as [vb Hb].
  unfold norm1, norm2 in *. unfold shift_layer.
  rewrite (pop_Some _ _ _ Hw). simpl.
  rewrite (pop_Some _ _ vb) by (by dict_lookup). simpl.
  case_bool_decide as Hpos.
  - destruct (Hprev ltac:(lia) weight) as [pw Hpw].
    destruct (Hprev ltac:(lia) bias) as [pb Hpb].
    rewrite (pop_Some _ _ pw) by (by dict_lookup). simpl.
    rewrite (pop_Some _ _ pb) by (by dict_lookup). simpl.
    eexists; split; [done|].
    split; [|split; [|split; [|split]]].
    + by intros []; dict_lookup.
    + by intros _ []; dict_lookup.
    + lia.
    + intros k Hk1 Hk2.
      pose proof (Hk1 weight) as [??]; pose proof (Hk1 bias) as [??].
      pose proof (Hk2 ltac:(lia) weight); pose proof (Hk2 ltac:(lia) bias).
      by dict_lookup.
    + intros Hn. pose proof (Hn weight); pose proof (Hn bias).
      by dict_size.
  - assert (l = 0) as -> by lia.
    eexists; split; [done|].
    split; [|split; [|split; [|split]]].
    + by intros []; dict_lookup.
    + lia.
    + by intros _ []; dict_lookup.
    + intros k Hk1 _.
      pose proof (Hk1 weight) as [??]; pose proof (Hk1 bias) as [??].
      by dict_lookup.
    + intros Hn. pose proof (Hn weight); pose proof (Hn bias).
      by dict_size.
Qed.

(** One round of the loop takes [loop_inv] from [m + 1] to [m]. *)
Lemma loop_inv_step L sd (m : nat) D :
  Z.of_nat (S m) <= L ->
  loop_inv L sd (Z.of_nat (S m)) D ->
  (forall x, is_Some (D !! norm1 (Z.of_nat m) x)) ->
  (0 < Z.of_nat m -> forall x, is_Some (D !! norm2 (Z.of_nat m - 1) x)) ->
  exists D1,
    shift_layer (Z.of_nat m) D = Ok D1 /\ loop_inv L sd (Z.of_nat m) D1.
Proof.
  intros Hn HD Hcur Hprev.
  destruct HD as [Hd2 Hd1 Ht1 Ht2 Hhole Hfirst Hlnf Hframe Hsize].
  destruct (shift_layer_spec (Z.of_nat m) D ltac:(lia) Hcur Hprev)
    as (D1 & HD1 & S2 & S1 & S0 & Sf & Ss).
  exists D1. split; [done|].
  assert (forall l x, 0 <= l -> l <> Z.of_nat m ->
          D1 !! norm1 l x = D !! norm1 l x) as Hn1.
  { intros l x Hl0 Hl. apply Sf; [intros y; split|intros Hm y]; key_neq. }
  assert (forall l x, 0 <= l -> l <> Z.of_nat m -> l <> Z.of_nat m - 1 ->
          D1 !! norm2 l x = D !! norm2 l x) as Hn2.
  { intros l x Hl0 Hl Hl'. apply Sf; [intros y; split|intros Hm y]; key_neq. }
  split.
  - intros l x Hl. destruct (decide (l = Z.of_nat m)) as [->|Hne].
    + rewrite S2. apply Ht1. lia.
    + rewrite Hn2 by lia. apply Hd2. lia.
  - intros l x Hl Hpos. destruct (decide (l = Z.of_nat m)) as [->|Hne].
    + destruct (S1 Hpos x) as [-> _]. apply Ht2. lia.
    + rewrite Hn1 by lia. apply Hd1; lia.
  - intros l x Hl. rewrite Hn1 by lia. apply Ht1. lia.
  - intros l x Hl. rewrite Hn2 by lia. apply Ht2. lia.
  - intros x Hpos. by destruct (S1 Hpos x) as [_ ->].
  - intros x Hm. rewrite <-Hm. apply S0. lia.
  - intros x. rewrite Sf; [apply Hlnf|..].
    + intros y; split; key_neq.
    + intros _ y; key_neq.
  - intros k Hk1 Hk2. rewrite Sf; [by apply Hframe|..].
    + intros y. apply Hk2. lia.
    + intros Hm y. apply Hk2. lia.
  - intros Hnone. rewrite Ss; [by apply Hsize|].
    intros x. replace (Z.of_nat m) with (Z.of_nat (S m) - 1) by lia.
    apply Hhole. lia.
Qed.

(** The loop of line 110 keeps [loop_inv], down to index 0. *)
Lemma shift_layers_spec L sd (n : nat) D :
  Z.of_nat n <= L ->
  (forall l x, 0 <= l < L ->
     is_Some (sd !! norm1 l x) /\ is_Some (sd !! norm2 l x)) ->
  loop_inv L sd (Z.of_nat n) D ->
  exists D', shift_layers n D = Ok D' /\ loop_inv L sd 0 D'.
Proof.
  intros Hn Hsd. revert D; induction n as [|m IH]; intros D HD.
  { by exists D. }
  destruct (loop_inv_step L sd m D Hn HD) as (D1 & HD1 & Hinv).
  - intros x. rewrite (inv_todo1 _ _ _ _ HD) by lia.
    by destruct (Hsd (Z.of_nat m) x) as [H1 _]; [lia|].
  - intros Hm x. rewrite (inv_todo2 _ _ _ _ HD) by lia.
    by destruct (Hsd (Z.of_nat m - 1) x) as [_ H2]; [lia|].
  - rewrite shift_layers_S, HD1, bind_Ok. apply IH; [lia|done].
Qed.

(** What the whole update does to a dict of the legacy layout. *)
Lemma reindex_norms_spec L sd :
  0 < L -> legacy_layout L sd ->
  exists out,
    reindex_norms L sd = Ok out
    /\ (forall x, out !! ln_f x = sd !! norm2 (L - 1) x)
    /\ (forall l x, 0 <= l < L -> out !! norm2 l x = sd !! norm1 l x)
    /\ (forall l x, 0 < l < L -> out !! norm1 l x = sd !! norm2 (l - 1) x)
    /\ (forall x, out !! block0_norm1 x = sd !! ln_0 x)
    /\ (forall x, out !! norm1 0 x = None /\ out !! ln_0 x = None)
    /\ (forall k,
          (forall x, k <> ln_f x /\ k <> ln_0 x /\ k <> block0_norm1 x) ->
          (forall l x, 0 <= l < L -> k <> norm1 l x /\ k <> norm2 l x) ->
          out !! k = sd !! k)
    /\ ((forall x, sd !! ln_f x = None /\ sd !! block0_norm1 x = None) ->
        size out = size sd).
Proof.
  intros HL [Hlayers Hln0]. unfold reindex_norms.
  destruct (Hlayers (L - 1) weight) as [_ [vw Hw]]; [lia|].
  destruct (Hlayers (L - 1) bias) as [_ [vb Hb]]; [lia|].
  unfold norm2 in Hw, Hb.
  rewrite (pop_Some _ _ _ Hw). simpl.
  rewrite (pop_Some _ _ vb) by (by dict_lookup). simpl.
  edestruct (shift_layers_spec L sd (Z.to_nat L)) as (D & -> & HD);
    [lia|done| |].
  { rewrite Z2Nat.id by lia. split.
    - intros; lia.
    - intros; lia.
    - intros l [] Hl; unfold norm1; by dict_lookup.
    - intros l [] Hl; unfold norm2; by dict_lookup.
    - intros [] _; unfold norm2; by dict_lookup.
    - intros; lia.
    - intros []; unfold ln_f, norm2; by dict_lookup.
    - intros k Hk1 Hk2.
      pose proof (Hk1 weight); pose proof (Hk1 bias).
      destruct (Hk2 (L - 1) weight) as [_ ?]; [lia|].
      destruct (Hk2 (L - 1) bias) as [_ ?]; [lia|].
      unfold ln_f, norm2 in *. by dict_lookup.
    - intros Hnone. pose proof (Hnone weight); pose proof (Hnone bias).
      unfold ln_f in *. by dict_size. }
  destruct HD as [Hd2 Hd1 _ _ _ Hfirst Hlnf Hframe Hsize]. simpl.
  destruct (Hln0 weight) as [zw Hzw], (Hln0 bias) as [zb Hzb].
  assert (forall x, D !! ln_0 x = sd !! ln_0 x) as HDln0.
  { intros x. apply Hframe; [intros y|intros l y Hl; split]; key_neq. }
  pose proof (HDln0 weight) as HDw. pose proof (HDln0 bias) as HDb.
  unfold ln_0 in *. rewrite Hzw in HDw. rewrite Hzb in HDb.
  rewrite (pop_Some _ _ _ HDw). simpl.
  rewrite (pop_Some _ _ zb) by (by dict_lookup). simpl.
  eexists; split; [done|].
  split; [|split; [|split; [|split; [|split; [|split]]]]].
  - intros x. rewrite <-Hlnf. destruct x; unfold ln_f; by dict_lookup.
  - intros l x Hl. rewrite <-Hd2 by lia.
    destruct x; unfold norm2; by dict_lookup.
  - intros l x Hl. rewrite <-Hd1 by lia.
    destruct x; unfold norm1; by dict_lookup.
  - intros []; unfold block0_norm1; by dict_lookup.
  - intros x. specialize (Hfirst x eq_refl).
    destruct x; unfold norm1 in *; split; by dict_lookup.
  - intros k Hk1 Hk2. rewrite <-Hframe; [|intros y; apply Hk1|done].
    destruct (Hk1 weight) as (_ & ? & ?), (Hk1 bias) as (_ & ? & ?).
    unfold ln_0, block0_norm1 in *. by dict_lookup.
  - intros Hnone. rewrite <-Hsize by (intros y; apply Hnone).
    assert (forall x, D !! block0_norm1 x = None) as HDb0.
    { intros x. rewrite Hframe; [apply Hnone|intros y|intros l y Hl; split];
        key_neq. }
    pose proof (HDb0 weight); pose proof (HDb0 bias).
    unfold block0_norm1 in *. by dict_size.
Qed.

(** *** When the update raises *)

Lemma bind_Raise {A B} (e : exn) (f : A -> result B) : Raise e ≫= f = Raise e.
Proof. done. Qed.

(** One round either finds the keys it pops, or raises [KeyError] for the
    first of them that the dict lacks. *)
Lemma shift_layer_cases l D :
  0 <= l ->
  ((forall x, is_Some (D !! norm1 l x))
   /\ (0 < l -> forall x, is_Some (D !! norm2 (l - 1) x)))
  \/ exists k,
       shift_layer l D = Raise (KeyError k) /\ D !! k = None
       /\ ((exists x, k = norm1 l x) \/ (0 < l /\ exists x, k = norm2 (l - 1) x)).
Proof.
  intros Hl.
  destruct (D !! norm1 l weight) as [vw|] eqn:Hw.
  2: { right. exists (norm1 l weight). split; [|split; [done|left; eauto]].
       unfold shift_layer. unfold norm1 in Hw. by rewrite (pop_None _ _ Hw). }
  destruct (D !! norm1 l bias) as [vb|] eqn:Hb.
  2: { right. exists (norm1 l bias). split; [|split; [done|left; eauto]].
       unfold shift_layer. unfold norm1 in Hw, Hb.
       rewrite (pop_Some _ _ _ Hw), bind_Ok.
       by rewrite pop_None by (by dict_lookup). }
  destruct (decide (0 < l)) as [Hpos|Hpos].
  2: { left. split; [by intros []; eauto|lia]. }
  destruct (D !! norm2 (l - 1) weight) as [pw|] eqn:Hpw.
  2: { right. exists (norm2 (l - 1) weight).
       split; [|split; [done|right; eauto]].
       unfold shift_layer. unfold norm1, norm2 in Hw, Hb, Hpw.
       rewrite (pop_Some _ _ _ Hw), bind_Ok.
       rewrite (pop_Some _ _ vb) by (by dict_lookup). rewrite bind_Ok.
       rewrite bool_decide_eq_true_2 by lia.
       by rewrite pop_None by (by dict_lookup). }
  destruct (D !! norm2 (l - 1) bias) as [pb|] eqn:Hpb.
  2: { right. exists (norm2 (l - 1) bias).
       split; [|split; [done|right; eauto]].
       unfold shift_layer. unfold norm1, norm2 in Hw, Hb, Hpw, Hpb.
       rewrite (pop_Some _ _ _ Hw), bind_Ok.
       rewrite (pop_Some _ _ vb) by (by dict_lookup). rewrite bind_Ok.
       rewrite bool_decide_eq_true_2 by lia.
       rewrite (pop_Some _ _ pw) by (by dict_lookup). rewrite bind_Ok.
       by rewrite pop_None by (by dict_lookup). }
  left. split; [by intros []; eauto|by intros _ []; eauto].
Qed.

(** The loop either finds every key it pops in the dict it started from, or
    raises [KeyError] for a layer-norm key that this dict lacks. *)
Lemma shift_layers_cases L sd (n : nat) : forall D,
  Z.of_nat n <= L ->
  loop_inv L sd (Z.of_nat n) D ->
  (exists D',
     shift_layers n D = Ok D' /\ loop_inv L sd 0 D'
     /\ (forall l x, 0 <= l < Z.of_nat n -> is_Some (sd !! norm1 l x))
     /\ (forall l x, 0 <= l < Z.of_nat n - 1 -> is_Some (sd !! norm2 l x)))
  \/ exists k,
       shift_layers n D = Raise (KeyError k) /\ sd !! k = None
       /\ exists l x, 0 <= l < Z.of_nat n /\ (k = norm1 l x \/ k = norm2 l x).
Proof.
  induction n as [|m IH]; intros D Hn HD.
  { left. exists D. split; [done|]. split; [exact HD|].
    split; intros; lia. }
  rewrite shift_layers_S.
  destruct (shift_layer_cases (Z.of_nat m) D ltac:(lia))
    as [[Hcur Hprev]|(k & Hraise & Hk & Hwhich)].
  - destruct (loop_inv_step L sd m D Hn HD Hcur Hprev) as (D1 & -> & Hinv).
    rewrite bind_Ok.
    destruct (IH D1 ltac:(lia) Hinv)
      as [(D' & Hrun & Hinv' & Hp1 & Hp2)|(k & Hraise & Hk & l & x & Hl & Hkl)].
    + left. exists D'. split; [done|]. split; [done|]. split.
      * intros l x Hl. destruct (decide (l = Z.of_nat m)) as [->|Hne].
        -- rewrite <-(inv_todo1 _ _ _ _ HD) by lia. apply Hcur.
        -- apply Hp1. lia.
      * intros l x Hl. destruct (decide (l = Z.of_nat m - 1)) as [->|Hne].
        -- rewrite <-(inv_todo2 _ _ _ _ HD) by lia. apply Hprev. lia.
        -- apply Hp2. lia.
    + right. exists k. split; [done|]. split; [done|].
      exists l, x. split; [lia|done].
  - right. exists k. rewrite Hraise, bind_Raise. split; [done|].
    destruct Hwhich as [[x ->]|[Hpos [x ->]]].
    + split; [by rewrite <-(inv_todo1 _ _ _ _ HD) by lia|].
      exists (Z.of_nat m), x. split; [lia|by left].
    + split; [by rewrite <-(inv_todo2 _ _ _ _ HD) by lia|].
      exists (Z.of_nat m - 1), x. split; [lia|by right].
Qed.

(** [loop_inv] holds when the loop is entered. *)
Lemma loop_inv_init L sd vw vb :
  0 < L ->
  sd !! layer_key (L - 1) ".norm2.weight" = Some vw ->
  sd !! layer_key (L - 1) ".norm2.bias" = Some vb ->
  loop_inv L sd L
    (<["backbone.ln_f.bias" := vb]>
       (<["backbone.ln_f.weight" := vw]>
          (delete (layer_key (L - 1) ".norm2.bias")
             (delete (layer_key (L - 1) ".norm2.weight") sd)))).
Proof.
  intros HL Hw Hb. split.
  - intros; lia.
  - intros; lia.
  - intros l [] Hl; unfold norm1; by dict_lookup.
  - intros l [] Hl; unfold norm2; by dict_lookup.
  - intros [] _; unfold norm2; by dict_lookup.
  - intros; lia.
  - intros []; unfold ln_f, norm2; by dict_lookup.
  - intros k Hk1 Hk2.
    pose proof (Hk1 weight); pose proof (Hk1 bias).
    destruct (Hk2 (L - 1) weight) as [_ ?]; [lia|].
    destruct (Hk2 (L - 1) bias) as [_ ?]; [lia|].
    unfold ln_f, norm2 in *. by dict_lookup.
  - intros Hnone. pose proof (Hnone weight); pose proof (Hnone bias).
    unfold ln_f in *. by dict_size.
Qed.

(** The update on any dict, for [L > 0]: it returns, and then the dict has
    the legacy layout, or it raises [KeyError] for a key of the legacy layout
    that the dict lacks. *)
Lemma reindex_norms_cases L sd :
  0 < L ->
  ((exists out, reindex_norms L sd = Ok out) /\ legacy_layout L sd)
  \/ exists k,
       reindex_norms L sd = Raise (KeyError k) /\ sd !! k = None
       /\ is_legacy_key L k.
Proof.
  intros HL. unfold reindex_norms.
  destruct (sd !! norm2 (L - 1) weight) as [vw|] eqn:Hw.
  2: { right. exists (norm2 (L - 1) weight). unfold norm2 in Hw.
       rewrite (pop_None _ _ Hw). split; [done|]. split; [done|].
       right. exists (L - 1), weight. split; [lia|by right]. }
  destruct (sd !! norm2 (L - 1) bias) as [vb|] eqn:Hb.
  2: { right. exists (norm2 (L - 1) bias). unfold norm2 in Hw, Hb.
       rewrite (pop_Some _ _ _ Hw), bind_Ok.
       rewrite pop_None by (by dict_lookup). split; [done|]. split; [done|].
       right. exists (L - 1), bias. split; [lia|by right]. }
  unfold norm2 in Hw, Hb.
  rewrite (pop_Some _ _ _ Hw), bind_Ok.
  rewrite (pop_Some _ _ vb) by (by dict_lookup). rewrite bind_Ok.
  cbv zeta.
  pose proof (loop_inv_init L sd vw vb HL Hw Hb) as Hinit.
  rewrite <-(Z2Nat.id L) in Hinit at 2 by lia.
  destruct (shift_layers_cases L sd (Z.to_nat L) _ ltac:(lia) Hinit)
    as [(D & -> & HD & Hp1 & Hp2)|(k & -> & Hk & l & x & Hl & Hkl)].
  2: { right. exists k. rewrite bind_Raise. split; [done|]. split; [done|].
       right. exists l, x. split; [lia|done]. }
  rewrite bind_Ok.
  assert (forall x, D !! ln_0 x = sd !! ln_0 x) as HDln0.
  { intros x. apply (inv_frame _ _ _ _ HD);
      [intros y|intros l y Hl; split]; key_neq. }
  destruct (sd !! ln_0 weight) as [zw|] eqn:Hzw.
  2: { right. exists (ln_0 weight). pose proof (HDln0 weight) as HDw.
       rewrite Hzw in HDw. unfold ln_0 in HDw.
       rewrite (pop_None _ _ HDw). split; [done|]. split; [done|].
       left. by exists weight. }
  destruct (sd !! ln_0 bias) as [zb|] eqn:Hzb.
  2: { right. exists (ln_0 bias).
       pose proof (HDln0 weight) as HDw. pose proof (HDln0 bias) as HDb.
       rewrite Hzw in HDw. rewrite Hzb in HDb. unfold ln_0 in HDw, HDb.
       rewrite (pop_Some _ _ _ HDw), bind_Ok.
       rewrite pop_None by (by dict_lookup). split; [done|]. split; [done|].
       left. by exists bias. }
  left.
  pose proof (HDln0 weight) as HDw. pose proof (HDln0 bias) as HDb.
  rewrite Hzw in HDw. rewrite Hzb in HDb. unfold ln_0 in HDw, HDb.
  rewrite (pop_Some _ _ _ HDw), bind_Ok.
  rewrite (pop_Some _ _ zb) by (by dict_lookup). rewrite bind_Ok.
  split; [by eexists|]. split.
  - intros l x Hl. split; [apply Hp1; lia|].
    destruct (decide (l = L - 1)) as [->|Hne].
    + destruct x; unfold norm2; eauto.
    + apply Hp2. lia.
  - intros []; unfold ln_0; eauto.
Qed.

End Reindex.

(** ** The renaming loop *)

Section Convert.
Context {V : Type}.
Implicit Types (sd D : gmap string V) (ks : list string).

Lemma convert_state_dict_cons key ks D v :
  D !! key = Some v ->
  convert_state_dict (key :: ks) D
  = convert_state_dict ks (<[rename_key key := v]> (delete key D)).
Proof. intros H. cbn [convert_state_dict]. by rewrite (pop_Some _ _ _ H). Qed.

(** The loop never raises: a key of the snapshot is popped once, and no key
    that is still to come has been removed. *)
Lemma convert_state_dict_total ks D :
  NoDup ks -> (forall k, k ∈ ks -> is_Some (D !! k)) ->
  exists out, convert_state_dict ks D = Ok out.
Proof.
  revert D; induction ks as [|key ks IH]; intros D Hnd Hin; [by eexists|].
  apply NoDup_cons in Hnd as [Hkey Hnd].
  destruct (Hin key) as [v Hv]; [left|].
  rewrite (convert_state_dict_cons _ _ _ _ Hv). apply IH; [done|].
  intros k Hk. destruct (decide (rename_key key = k)) as [->|Hne].
  - rewrite lookup_insert_eq. eauto.
  - rewrite lookup_insert_ne, lookup_delete_ne by congruence.
    apply Hin. by right.
Qed.

(** A key that [rename_key] leaves alone, and that no other visited key is
    renamed to, keeps its value. *)
Lemma convert_state_dict_fixed_key K ks D out :
  rename_key K = K ->
  (forall k, k ∈ ks -> rename_key k = K -> k = K) ->
  convert_state_dict ks D = Ok out ->
  out !! K = D !! K.
Proof.
  intros HK. revert D; induction ks as [|key ks IH]; intros D Hpre Hrun.
  { by injection Hrun as ->. }
  cbn [convert_state_dict] in Hrun. unfold pop in Hrun.
  destruct (D !! key) as [v|] eqn:Hv; [|done].
  rewrite bind_Ok in Hrun. apply IH in Hrun.
  - rewrite Hrun. destruct (decide (key = K)) as [->|Hne].
    + by rewrite HK, lookup_insert_eq.
    + rewrite lookup_insert_ne, lookup_delete_ne; [done..|].
      intros Heq. apply Hne, Hpre; [left|done].
  - intros k Hk. apply Hpre. by right.
Qed.

Section Injective.
Variable sd : gmap string V.
Hypothesis rename_inj : forall k1 k2,
  is_Some (sd !! k1) -> is_Some (sd !! k2) ->
  rename_key k1 = rename_key k2 -> k1 = k2.

(** A key of [sd] is renamed to itself or to a key that [sd] does not have. *)
Lemma rename_key_no_capture k :
  is_Some (sd !! k) -> is_Some (sd !! rename_key k) -> rename_key k = k.
Proof. intros Hk Hr. apply rename_inj; [done..|apply rename_key_twice]. Qed.

Lemma rename_entries_lookup k v :
  rename_entries sd !! k = Some v
  <-> exists k0, rename_key k0 = k /\ sd !! k0 = Some v.
Proof.
  unfold rename_entries. rewrite <-elem_of_list_to_map.
  - rewrite list_elem_of_fmap. split.
    + intros ([k0 v0] & [= -> ->] & Hin%elem_of_map_to_list). by exists k0.
    + intros (k0 & <- & Hk0). exists (k0, v).
      split; [done|]. by apply elem_of_map_to_list.
  - rewrite <-list_fmap_compose.
    apply NoDup_fmap_2_strong; [|apply NoDup_map_to_list].
    intros [k1 v1] [k2 v2] H1%elem_of_map_to_list H2%elem_of_map_to_list Heq.
    simpl in Heq. apply rename_inj in Heq; [|eauto..]. subst k2.
    congruence.
Qed.

(** The dict in the loop when [done] has been visited and [rest] is still to
    come: the entries of [rest] as they were, those of [done] renamed. *)
Lemma convert_state_dict_loop rest : forall done D,
  NoDup (done ++ rest) ->
  (forall k, k ∈ done ++ rest -> is_Some (sd !! k)) ->
  (forall k v, D !! k = Some v <->
     (k ∈ rest /\ sd !! k = Some v)
     \/ exists k0, k0 ∈ done /\ rename_key k0 = k /\ sd !! k0 = Some v) ->
  exists out,
    convert_state_dict rest D = Ok out
    /\ forall k v, out !! k = Some v <->
         exists k0, k0 ∈ done ++ rest /\ rename_key k0 = k /\ sd !! k0 = Some v.
Proof.
  induction rest as [|key rest IH]; intros done D Hnd Hdom HD.
  { exists D. split; [done|]. intros k v. rewrite HD, app_nil_r.
    split; [intros [[[]%elem_of_nil _]|?]; done|by right]. }
  destruct (Hdom key) as [v Hv]; [apply elem_of_app; right; left|].
  assert (D !! key = Some v) as HDkey.
  { apply HD. left. split; [left|done]. }
  rewrite (convert_state_dict_cons _ _ _ _ HDkey).
  replace (done ++ key :: rest) with ((done ++ [key]) ++ rest) in *
    by (by rewrite <-app_assoc).
  apply IH; [done..|].
  apply NoDup_app in Hnd as (Hnd1 & Hdisj & Hnd2).
  apply NoDup_app in Hnd1 as (_ & Hkey_done & _).
  assert (key ∉ rest) as Hkey_rest.
  { apply Hdisj, elem_of_app. right; left. }
  assert (forall k0, k0 ∈ done -> k0 <> key) as Hdone_key.
  { intros k0 Hk0 ->. apply (Hkey_done key Hk0). left. }
  intros k w. destruct (decide (rename_key key = k)) as [<-|Hne].
  - rewrite lookup_insert_eq. split.
    + intros [= <-]. right. exists key.
      split; [apply elem_of_app; right; left|done].
    + intros [[Hin Hw]|(k0 & Hk0 & Heq & Hw)].
      * assert (rename_key key = key) as Hfix.
        { apply rename_key_no_capture; eauto. }
        rewrite Hfix in Hin. done.
      * apply rename_inj in Heq; [|eauto..]. subst k0. congruence.
  - rewrite lookup_insert_ne by done.
    destruct (decide (key = k)) as [<-|Hne'].
    + rewrite lookup_delete_eq. split; [done|].
      intros [[Hin _]|(k0 & Hk0 & Heq & Hw)]; [done|].
      apply elem_of_app in Hk0 as [Hk0|Hk0%list_elem_of_singleton].
      * assert (rename_key k0 = k0) as Hfix.
        { apply rename_key_no_capture; [eauto|]. rewrite Heq. eauto. }
        destruct (Hdone_key k0 Hk0). congruence.
      * subst k0. done.
    + rewrite lookup_delete_ne by done. rewrite HD. split.
      * intros [[Hin Hw]|(k0 & Hk0 & Heq & Hw)].
        -- left. split; [|done].
           apply elem_of_cons in Hin as [?|?]; [congruence|done].
        -- right. exists k0. split; [apply elem_of_app; by left|done].
      * intros [[Hin Hw]|(k0 & Hk0 & Heq & Hw)].
        -- left. split; [by right|done].
        -- apply elem_of_app in Hk0 as [Hk0|Hk0%list_elem_of_singleton].
           ++ right. by exists k0.
           ++ subst k0. done.
Qed.

Lemma convert_state_dict_rename_entries ks :
  enumerates ks sd -> convert_state_dict ks sd = Ok (rename_entries sd).
Proof.
  intros [Hnd Hks].
  destruct (convert_state_dict_loop ks [] sd) as (out & -> & Hout).
  - done.
  - intros k Hk. by apply Hks.
  - intros k v. split.
    + intros Hv. left. split; [|done]. apply Hks. eauto.
    + intros [[_ ?]|(k0 & []%elem_of_nil & _)]. done.
  - f_equal. apply map_eq. intros k. apply option_eq. intros v.
    rewrite Hout, rename_entries_lookup. simpl. split.
    + intros (k0 & _ & ? & ?). by exists k0.
    + intros (k0 & ? & Hv). exists k0. split; [|done]. apply Hks. eauto.
Qed.

End Injective.

End Convert.

(** ** The Lightning wrapper *)

Section LoaderFacts.
Context {T : Type}.
Implicit Types (d acc : gmap string (pyobj T)).

Lemma strip_key_inv k0 k :
  startswith k0 "model." = true ->
  slice_from (String.length "model.") k0 = k -> k0 = "model." +:+ k.
Proof. intros H <-. by apply startswith_split. Qed.

Lemma strip_model_prefix_fold d ks : forall acc k,
  foldl (fun acc k =>
           match d !! k with
           | Some v =>
               if startswith k "model."
               then <[slice_from (String.length "model.") k := v]> acc
               else acc
           | None => acc
           end) acc ks !! k
  = match d !! ("model." +:+ k) with
    | Some v => if bool_decide ("model." +:+ k ∈ ks) then Some v else acc !! k
    | None => acc !! k
    end.
Proof.
  induction ks as [|k0 ks IH]; intros acc k.
  { cbn [foldl]. by destruct (d !! _). }
  cbn [foldl]. rewrite IH.
  destruct (decide (k0 = "model." +:+ k)) as [->|Hne].
  - destruct (d !! ("model." +:+ k)) as [v|] eqn:Hv; [|done].
    rewrite startswith_refl_app, slice_from_app, lookup_insert_eq.
    rewrite (bool_decide_eq_true_2 (_ ∈ _ :: _)) by left.
    by case_bool_decide.
  - assert (match d !! k0 with
            | Some v =>
                if startswith k0 "model."
                then <[slice_from (String.length "model.") k0 := v]> acc
                else acc
            | None => acc
            end !! k = acc !! k) as ->.
    { destruct (d !! k0) as [v0|]; [|done].
      destruct (startswith k0 "model.") eqn:E; [|done].
      apply lookup_insert_ne. intros Heq. by apply Hne, strip_key_inv. }
    destruct (d !! ("model." +:+ k)) as [v|]; [|done].
    rewrite (bool_decide_ext ("model." +:+ k ∈ k0 :: ks) ("model." +:+ k ∈ ks));
      [done|].
    rewrite elem_of_cons. split; [intros [?|?]; [congruence|done]|by right].
Qed.

Lemma strip_model_prefix_lookup ks d k :
  (forall k', k' ∈ ks <-> is_Some (d !! k')) ->
  strip_model_prefix ks d !! k = d !! ("model." +:+ k).
Proof.
  intros Hks. unfold strip_model_prefix. rewrite strip_model_prefix_fold.
  destruct (d !! ("model." +:+ k)) as [v|] eqn:Hv; [|done].
  rewrite bool_decide_eq_true_2; [done|]. apply Hks. eauto.
Qed.

End LoaderFacts.

(** ** The example dicts *)

Section Examples.

Lemma dict_of_keys_lookup ks k :
  dict_of_keys ks !! k = if bool_decide (k ∈ ks) then Some k else None.
Proof.
  unfold dict_of_keys. induction ks as [|k0 ks IH]; [done|].
  cbn [fmap list_fmap list_to_map foldr].
  destruct (decide (k0 = k)) as [->|Hne].
  - rewrite lookup_insert_eq. by rewrite bool_decide_eq_true_2 by left.
  - rewrite lookup_insert_ne by done. rewrite IH.
    apply (f_equal (fun b : bool => if b then Some k else None)).
    apply bool_decide_ext. rewrite elem_of_cons.
    split; [by right|intros [?|?]; [congruence|done]].
Qed.

Lemma dict_of_keys_is_Some ks k : is_Some (dict_of_keys ks !! k) <-> k ∈ ks.
Proof.
  rewrite dict_of_keys_lookup. case_bool_decide; split; try done.
  all: by intros [? ?].
Qed.

Lemma legacy_keys_elem (L : nat) k :
  k ∈ legacy_keys L <-> is_legacy_key (Z.of_nat L) k.
Proof.
  unfold legacy_keys, is_legacy_key.
  rewrite elem_of_app, !elem_of_cons, elem_of_nil.
  rewrite list_elem_of_In, in_flat_map. split.
  - intros [[->|[->|[]]]|(l & Hl & Hk)].
    + left. by exists weight.
    + left. by exists bias.
    + right. apply list_elem_of_In, list_elem_of_fmap in Hl as (n & -> & Hn).
      apply elem_of_seq in Hn. apply list_elem_of_In in Hk.
      rewrite !elem_of_cons, elem_of_nil in Hk.
      destruct Hk as [->|[->|[->|[->|[]]]]];
        [exists (Z.of_nat n), weight|exists (Z.of_nat n), bias
        |exists (Z.of_nat n), weight|exists (Z.of_nat n), bias];
        (split; [lia|auto]).
  - intros [[[] ->]|(l & x & Hl & Hk)]; [by left; left|by left; right; left|].
    right. exists l. split.
    + apply list_elem_of_In, list_elem_of_fmap. exists (Z.to_nat l).
      split; [lia|]. apply elem_of_seq. lia.
    + apply list_elem_of_In. rewrite !elem_of_cons.
      destruct x, Hk as [->| ->]; auto.
Qed.

Lemma legacy_example_keys (L : nat) k :
  is_Some (legacy_example L !! k) <-> is_legacy_key (Z.of_nat L) k.
Proof. unfold legacy_example. by rewrite dict_of_keys_is_Some, legacy_keys_elem. Qed.

Lemma legacy_example_layout (L : nat) :
  legacy_layout (Z.of_nat L) (legacy_example L).
Proof.
  split.
  - intros l x Hl. split; apply legacy_example_keys; right; exists l, x; auto.
  - intros x. apply legacy_example_keys. left. by exists x.
Qed.

Lemma enumerates_keys_of {V} (d : gmap string V) : enumerates (keys_of d) d.
Proof.
  split; [apply NoDup_fst_map_to_list|].
  intros k. unfold keys_of. rewrite list_elem_of_fmap. split.
  - intros ([k' v] & -> & Hin%elem_of_map_to_list). eauto.
  - intros [v Hv]. exists (k, v). split; [done|]. by apply elem_of_map_to_list.
Qed.

End Examples.

(** ** The update as a whole *)

Section Update.
Context {V : Type}.
Implicit Types (sd : gmap string V) (config : H3Config).

Lemma update_state_dict_legacy config sd :
  is_Some (sd !! "backbone.ln_0.weight") ->
  update_state_dict config sd = reindex_norms (num_hidden_layers config) sd.
Proof.
  intros H. unfold update_state_dict, dict_in.
  by rewrite bool_decide_eq_true_2.
Qed.

Lemma update_state_dict_plain config sd :
  sd !! "backbone.ln_0.weight" = None -> update_state_dict config sd = Ok sd.
Proof.
  intros H. unfold update_state_dict, dict_in.
  rewrite bool_decide_eq_false_2; [done|]. rewrite H. by intros [? ?].
Qed.

Lemma legacy_layout_norm1 L sd l x :
  legacy_layout L sd -> 0 <= l < L -> is_Some (sd !! norm1 l x).
Proof. intros [H _] Hl. by destruct (H l x Hl). Qed.

Lemma legacy_layout_norm2 L sd l x :
  legacy_layout L sd -> 0 <= l < L -> is_Some (sd !! norm2 l x).
Proof. intros [H _] Hl. by destruct (H l x Hl). Qed.

Lemma legacy_layout_ln_0 L sd x : legacy_layout L sd -> is_Some (sd !! ln_0 x).
Proof. intros [_ H]. exact (H x). Qed.

(** C1, with both fields of the norm before the first layer required. For
    a dict that has ["backbone.ln_0.weight"], ["backbone.ln_0.bias"] and, for
    every layer [l] in [[0, L)], the weight and bias of [norm1] and [norm2],
    the update returns a dict where the final norm ["backbone.ln_f"] holds
    what [norm2] of layer [L - 1] held, [norm2] of every layer [l] what
    [norm1] of [l] held, [norm1] of every layer [l > 0] what [norm2] of
    [l - 1] held, and [norm1] of layer 0, under ["h3.blocks.0.norm1"], what
    ["backbone.ln_0"] held. The values are looked up, never changed. *)
Theorem reindexing_moves_norms config sd :
  let L := num_hidden_layers config in
  0 < L -> legacy_layout L sd ->
  exists out,
    update_state_dict config sd = Ok out
    /\ (forall x, is_Some (out !! ln_f x)
                  /\ out !! ln_f x = sd !! norm2 (L - 1) x)
    /\ (forall l x, 0 <= l < L ->
          is_Some (out !! norm2 l x) /\ out !! norm2 l x = sd !! norm1 l x)
    /\ (forall l x, 0 < l < L ->
          is_Some (out !! norm1 l x)
          /\ out !! norm1 l x = sd !! norm2 (l - 1) x)
    /\ (forall x, is_Some (out !! block0_norm1 x)
                  /\ out !! block0_norm1 x = sd !! ln_0 x).
Proof.
  intros L HL Hsd.
  destruct (reindex_norms_spec L sd HL Hsd)
    as (out & Hrun & Hf & H2 & H1 & H0 & _).
  exists out. split.
  { rewrite update_state_dict_legacy; [done|].
    exact (legacy_layout_ln_0 L sd weight Hsd). }
  split; [|split; [|split]].
  - intros x. split; [|exact (Hf x)]. rewrite Hf.
    apply (legacy_layout_norm2 L); [done|lia].
  - intros l x Hl. split; [|exact (H2 l x Hl)]. rewrite H2 by done.
    by apply (legacy_layout_norm1 L).
  - intros l x Hl. split; [|exact (H1 l x Hl)]. rewrite H1 by done.
    apply (legacy_layout_norm2 L); [done|lia].
  - intros x. split; [|exact (H0 x)]. rewrite H0.
    by apply (legacy_layout_ln_0 L).
Qed.

(** C2. On a dict whose keys are exactly the legacy layer-norm keys (both
    fields of [norm1] and [norm2] of every layer and of ["backbone.ln_0"]),
    the update returns a dict whose keys are exactly both fields of [norm2] of
    every layer, of [norm1] of every layer (layer 0 under
    ["h3.blocks.0.norm1"]) and of ["backbone.ln_f"]; it has as many keys as
    the dict it was made from, and each new key holds the value of one old
    key: none is lost and none is used twice. *)
Theorem reindexing_key_bijection config sd :
  let L := num_hidden_layers config in
  0 < L ->
  (forall k, is_Some (sd !! k) <-> is_legacy_key L k) ->
  exists out,
    update_state_dict config sd = Ok out
    /\ (forall k, is_Some (out !! k) <-> is_shifted_key L k)
    /\ size out = size sd
    /\ (forall x, out !! ln_f x = sd !! norm2 (L - 1) x)
    /\ (forall l x, 0 <= l < L -> out !! norm2 l x = sd !! norm1 l x)
    /\ (forall l x, 0 < l < L -> out !! norm1 l x = sd !! norm2 (l - 1) x)
    /\ (forall x, out !! block0_norm1 x = sd !! ln_0 x).
Proof.
  intros L HL Hkeys.
  assert (forall k, is_legacy_key L k -> is_Some (sd !! k)) as Hin.
  { intros k Hk. by apply Hkeys. }
  assert (forall k, ~ is_legacy_key L k -> sd !! k = None) as Hnone.
  { intros k Hk. destruct (sd !! k) eqn:E; [|done].
    destruct Hk. apply Hkeys. eauto. }
  assert (legacy_layout L sd) as Hsd.
  { split.
    - intros l x Hl. split; apply Hin; right; exists l, x; auto.
    - intros x. apply Hin. left. by exists x. }
  destruct (reindex_norms_spec L sd HL Hsd)
    as (out & Hrun & Hf & H2 & H1 & H0 & Hgone & Hframe & Hsize).
  exists out. split; [|split; [|split; [|done]]].
  - rewrite update_state_dict_legacy; [done|].
    exact (legacy_layout_ln_0 L sd weight Hsd).
  - intros k. split.
    + intros Hout.
      destruct (decide (k = ln_f weight \/ k = ln_f bias
                        \/ k = block0_norm1 weight \/ k = block0_norm1 bias))
        as [Hk|Hnew].
      { left. destruct Hk as [->|[->|[->| ->]]];
          [exists weight|exists bias|exists weight|exists bias]; auto. }
      destruct (sd !! k) as [v|] eqn:Hk.
      * assert (is_legacy_key L k) as [[x ->]|(l & x & Hl & [->| ->])]
          by (apply Hkeys; eauto).
        -- destruct (Hgone x) as [_ Hx]. rewrite Hx in Hout.
           by destruct Hout.
        -- destruct (decide (l = 0)) as [->|Hne].
           ++ destruct (Hgone x) as [Hx _]. rewrite Hx in Hout.
              by destruct Hout.
           ++ right. exists l, x. split; [done|]. right. split; [lia|done].
        -- right. exists l, x. auto.
      * rewrite Hframe, Hk in Hout; [by destruct Hout|..].
        -- intros x. split; [|split].
           ++ intros ->. apply Hnew. destruct x; auto.
           ++ intros ->.
              destruct (legacy_layout_ln_0 L sd x Hsd) as [? ?]. congruence.
           ++ intros ->. apply Hnew. destruct x; auto.
        -- intros l x Hl. split; intros ->.
           ++ destruct (legacy_layout_norm1 L sd l x Hsd Hl) as [? ?].
              congruence.
           ++ destruct (legacy_layout_norm2 L sd l x Hsd Hl) as [? ?].
              congruence.
    + intros [[x [->| ->]]|(l & x & Hl & [->|[Hpos ->]])].
      * rewrite Hf. apply (legacy_layout_norm2 L); [done|lia].
      * rewrite H0. by apply (legacy_layout_ln_0 L).
      * rewrite H2 by done. by apply (legacy_layout_norm1 L).
      * rewrite H1 by lia. apply (legacy_layout_norm2 L); [done|lia].
  - apply Hsize. intros x. split; apply Hnone.
    + intros [[y Hy]|(l & y & Hl & [Hy|Hy])]; revert Hy; key_neq.
    + intros [[y Hy]|(l & y & Hl & [Hy|Hy])]; revert Hy; key_neq.
Qed.

(** C3. Without the key ["backbone.ln_0.weight"] the update is skipped: the
    dict that goes on to [convert_state_dict] is the one that came in. *)
Theorem update_skipped_without_sentinel config sd :
  sd !! "backbone.ln_0.weight" = None ->
  update_state_dict config sd = Ok sd
  /\ forall keys model_name,
       get_h3_config model_name = Ok config ->
       rewrite_state_dict keys model_name sd
       = convert_state_dict (keys sd) sd.
Proof.
  intros H. split; [by apply update_state_dict_plain|].
  intros keys model_name Hcfg. unfold rewrite_state_dict.
  by rewrite Hcfg, bind_Ok, update_state_dict_plain, bind_Ok.
Qed.

End Update.

(** ** The renaming stage *)

Section Renaming.
Context {V : Type}.
Implicit Types (sd mid : gmap string V) (config : H3Config).

(** C4. On a dict on whose keys [rename_key] is injective, the loop of
    [convert_state_dict] returns [rename_entries]: every entry keeps its value
    and gets the renamed key, whatever the order [ks] in which the keys are
    visited. *)
Theorem convert_state_dict_refines sd ks :
  enumerates ks sd ->
  (forall k1 k2, is_Some (sd !! k1) -> is_Some (sd !! k2) ->
     rename_key k1 = rename_key k2 -> k1 = k2) ->
  convert_state_dict ks sd = Ok (rename_entries sd)
  /\ forall k v, rename_entries sd !! k = Some v
       <-> exists k0, rename_key k0 = k /\ sd !! k0 = Some v.
Proof.
  intros Hks Hinj. split.
  - by apply convert_state_dict_rename_entries.
  - intros k v. by apply rename_entries_lookup.
Qed.

(** C9. After the update and before the renaming, the tensors of
    ["backbone.ln_0"] are under ["h3.blocks.0.norm1"], and nothing is under
    ["backbone.layers.0.norm1"]; the other layer norms are under keys that
    start with ["backbone."]. [rename_key] leaves the two keys of
    ["h3.blocks.0.norm1"] as they are, and after [convert_state_dict] they
    still hold the tensors of ["backbone.ln_0"]. *)
Theorem sentinel_lands_in_block0_norm1 config sd :
  let L := num_hidden_layers config in
  0 < L -> legacy_layout L sd ->
  exists mid,
    update_state_dict config sd = Ok mid
    /\ (forall x, mid !! block0_norm1 x = sd !! ln_0 x
                  /\ mid !! norm1 0 x = None
                  /\ rename_key (block0_norm1 x) = block0_norm1 x)
    /\ (forall x, mid !! ln_f x = sd !! norm2 (L - 1) x
                  /\ startswith (ln_f x) "backbone." = true)
    /\ (forall l x, 0 <= l < L ->
          mid !! norm2 l x = sd !! norm1 l x
          /\ startswith (norm2 l x) "backbone." = true)
    /\ (forall l x, 0 < l < L ->
          mid !! norm1 l x = sd !! norm2 (l - 1) x
          /\ startswith (norm1 l x) "backbone." = true)
    /\ (forall ks, enumerates ks mid ->
          exists out,
            convert_state_dict ks mid = Ok out
            /\ forall x, out !! block0_norm1 x = sd !! ln_0 x).
Proof.
  intros L HL Hsd.
  destruct (reindex_norms_spec L sd HL Hsd)
    as (mid & Hrun & Hf & H2 & H1 & H0 & Hgone & _).
  assert (forall x, rename_key (block0_norm1 x) = block0_norm1 x) as Hfix.
  { by intros []. }
  pose proof layer_key_backbone as Hpre.
  exists mid. split.
  { rewrite update_state_dict_legacy; [done|].
    exact (legacy_layout_ln_0 L sd weight Hsd). }
  split; [|split; [|split; [|split]]].
  - intros x. split; [exact (H0 x)|]. split; [|exact (Hfix x)].
    by destruct (Hgone x).
  - intros x. split; [exact (Hf x)|]. by destruct x.
  - intros l x Hl. split; [exact (H2 l x Hl)|]. apply Hpre.
  - intros l x Hl. split; [exact (H1 l x Hl)|]. apply Hpre.
  - intros ks [Hnd Hks].
    destruct (convert_state_dict_total ks mid Hnd) as [out Hout].
    { intros k Hk. by apply Hks. }
    exists out. split; [done|]. intros x.
    rewrite (convert_state_dict_fixed_key (block0_norm1 x) ks mid out);
      [exact (H0 x)|exact (Hfix x)| |done].
    intros k Hk [-> | ->]%rename_key_block0_preimage; [done|].
    apply Hks in Hk as [v Hv]. destruct (Hgone x) as [Hx _]. congruence.
Qed.

End Renaming.

(** ** The configuration, the loader and the comparison *)

(** C6. Each of the four names has its fixed configuration; with any other
    name no local is assigned, and building the configuration raises. *)
Theorem get_h3_config_spec (model_name : string) :
  get_h3_config "H3-125m"
  = Ok {| hidden_size := 768; num_hidden_layers := 12;
          num_attention_heads := 12; attn_layer_idx := [6] |}
  /\ get_h3_config "H3-355m"
     = Ok {| hidden_size := 1024; num_hidden_layers := 24;
             num_attention_heads := 16; attn_layer_idx := [8; 16] |}
  /\ get_h3_config "H3-1.3b"
     = Ok {| hidden_size := 2048; num_hidden_layers := 24;
             num_attention_heads := 16; attn_layer_idx := [8; 16] |}
  /\ get_h3_config "H3-2.7b"
     = Ok {| hidden_size := 2560; num_hidden_layers := 32;
             num_attention_heads := 20; attn_layer_idx := [8; 16; 24] |}
  /\ (model_name ∉ ["H3-125m"; "H3-355m"; "H3-1.3b"; "H3-2.7b"] ->
      get_h3_config model_name = Raise (UnboundLocalError "hidden_size")).
Proof.
  repeat split. intros Hname. unfold get_h3_config.
  rewrite !not_elem_of_cons in Hname.
  destruct Hname as (H1 & H2 & H3 & H4 & _).
  apply String.eqb_neq in H1, H2, H3, H4. by rewrite H1, H2, H3, H4.
Qed.

(** C7. For ["H3-125m"] and ["H3-355m"] the logits are compared with the
    reference slice of the model, with [atol] [1e-2], and a failed comparison
    raises; for every other name, ["H3-1.3b"] and ["H3-2.7b"] among them,
    nothing is compared and nothing is raised. *)
Theorem verify_logits_gate {Logits : Type}
    (allclose : Logits -> list (list Q) -> Q -> bool)
    (model_name : string) (logits : Logits) :
  verify_logits allclose "H3-125m" logits
  = (if allclose logits [[5.9570; 7.0703; 4.4727]%Q] 1e-2%Q
     then Ok tt else Raise AssertionError)
  /\ verify_logits allclose "H3-355m" logits
     = (if allclose logits [[4.5926; 6.2018; 4.6021]%Q] 1e-2%Q
        then Ok tt else Raise AssertionError)
  /\ verify_logits allclose "H3-1.3b" logits = Ok tt
  /\ verify_logits allclose "H3-2.7b" logits = Ok tt
  /\ (model_name ∉ ["H3-125m"; "H3-355m"] ->
      verify_logits allclose model_name logits = Ok tt).
Proof.
  repeat split. intros Hname. unfold verify_logits.
  by rewrite bool_decide_eq_false_2.
Qed.

(** C8. A checkpoint with the key ["pytorch-lightning_version"] is replaced
    by the entries of its ["state_dict"] whose keys start with ["model."],
    under the rest of the key and with the same value; the other entries are
    dropped. *)
Theorem unwrap_lightning_spec {T : Type}
    (keys : gmap string (pyobj T) -> list string)
    (state_dict d : gmap string (pyobj T)) :
  is_Some (state_dict !! "pytorch-lightning_version") ->
  state_dict !! "state_dict" = Some (Dict d) ->
  enumerates (keys d) d ->
  exists out,
    unwrap_lightning keys state_dict = Ok out
    /\ (forall k, out !! k = d !! ("model." +:+ k))
    /\ (forall k v, d !! k = Some v -> startswith k "model." = true ->
          out !! slice_from (String.length "model.") k = Some v)
    /\ (forall k' v, out !! k' = Some v ->
          exists k, d !! k = Some v /\ startswith k "model." = true
                    /\ k' = slice_from (String.length "model.") k).
Proof.
  intros Hver Hsd [_ Hks]. eexists. split; [|split; [|split]].
  - unfold unwrap_lightning, dict_in.
    by rewrite bool_decide_eq_true_2, Hsd by done.
  - intros k. by apply strip_model_prefix_lookup.
  - intros k v Hk Hpre. rewrite strip_model_prefix_lookup by done.
    by rewrite <-(startswith_split _ _ Hpre).
  - intros k' v Hk'. rewrite strip_model_prefix_lookup in Hk' by done.
    exists ("model." +:+ k'). split; [done|].
    by rewrite startswith_refl_app, slice_from_app.
Qed.

(** ** The theorems at concrete dicts *)

Section Witnesses.

(** The claim of C1 as it was stated, with only the weight of
    ["backbone.ln_0"] required, fails: this dict of the 12-layer model has
    that key and every layer norm, and the update raises on the missing
    bias instead of returning a dict. *)
Lemma reindexing_fails_without_sentinel_bias :
  let sd := legacy_example_no_bias 12 in
  get_h3_config "H3-125m" = Ok config_125m
  /\ is_Some (sd !! "backbone.ln_0.weight")
  /\ (forall l x, 0 <= l < num_hidden_layers config_125m ->
        is_Some (sd !! norm1 l x) /\ is_Some (sd !! norm2 l x))
  /\ update_state_dict config_125m sd = Raise (KeyError "backbone.ln_0.bias").
Proof.
  split; [reflexivity|]. split; [by eexists; vm_compute|].
  split; [|by vm_compute].
  intros l x Hl. unfold legacy_example_no_bias.
  rewrite !lookup_delete_ne by key_neq.
  split.
  - by apply (legacy_layout_norm1 _ _ _ _ (legacy_example_layout 12)).
  - by apply (legacy_layout_norm2 _ _ _ _ (legacy_example_layout 12)).
Qed.

Lemma reindexing_moves_norms_witness :
  0 < num_hidden_layers config_two_layers
  /\ legacy_layout 2 (legacy_example 2)
  /\ exists out,
       update_state_dict config_two_layers (legacy_example 2) = Ok out
       /\ out !! ln_f weight = Some (norm2 1 weight)
       /\ out !! norm2 1 bias = Some (norm1 1 bias)
       /\ out !! norm1 1 weight = Some (norm2 0 weight)
       /\ out !! norm2 0 weight = Some (norm1 0 weight)
       /\ out !! block0_norm1 bias = Some (ln_0 bias).
Proof.
  assert (0 < num_hidden_layers config_two_layers) as Hpos by reflexivity.
  pose proof (legacy_example_layout 2) as Hlay.
  destruct (reindexing_moves_norms config_two_layers (legacy_example 2)
              Hpos Hlay) as (out & Hrun & Hf & H2 & H1 & H0).
  split; [exact Hpos|]. split; [exact Hlay|].
  exists out. split; [exact Hrun|].
  split; [|split; [|split; [|split]]].
  - rewrite (proj2 (Hf weight)). vm_compute. reflexivity.
  - rewrite (proj2 (H2 1 bias ltac:(simpl; lia))). vm_compute. reflexivity.
  - rewrite (proj2 (H1 1 weight ltac:(simpl; lia))). vm_compute. reflexivity.
  - rewrite (proj2 (H2 0 weight ltac:(simpl; lia))). vm_compute. reflexivity.
  - rewrite (proj2 (H0 bias)). vm_compute. reflexivity.
Defined.

Lemma reindexing_key_bijection_witness :
  exists out,
    update_state_dict config_two_layers (legacy_example 2) = Ok out
    /\ is_Some (out !! block0_norm1 weight)
    /\ size out = 10%nat.
Proof.
  assert (0 < num_hidden_layers config_two_layers) as Hpos by reflexivity.
  destruct (reindexing_key_bijection config_two_layers (legacy_example 2)
              Hpos (legacy_example_keys 2)) as (out & Hrun & Hkeys & Hsize & _).
  exists out. split; [exact Hrun|]. split.
  - apply Hkeys. left. exists weight. by right.
  - rewrite Hsize. vm_compute. reflexivity.
Defined.

Lemma update_skipped_without_sentinel_witness :
  update_state_dict config_125m plain_example = Ok plain_example.
Proof.
  apply (update_skipped_without_sentinel config_125m plain_example).
  vm_compute. reflexivity.
Defined.

Lemma plain_example_rename_inj k1 k2 :
  is_Some (plain_example !! k1) -> is_Some (plain_example !! k2) ->
  rename_key k1 = rename_key k2 -> k1 = k2.
Proof.
  unfold plain_example. rewrite !dict_of_keys_is_Some, !elem_of_cons.
  intros [->|[->|[->|[->|[]%elem_of_nil]]]] [->|[->|[->|[->|[]%elem_of_nil]]]] H;
    first [reflexivity | by vm_compute in H].
Qed.

Lemma convert_state_dict_refines_witness :
  convert_state_dict (keys_of plain_example) plain_example
  = Ok (rename_entries plain_example).
Proof.
  apply (convert_state_dict_refines plain_example (keys_of plain_example)).
  - apply enumerates_keys_of.
  - apply plain_example_rename_inj.
Defined.

Lemma sentinel_lands_in_block0_norm1_witness :
  exists mid out,
    update_state_dict config_two_layers (legacy_example 2) = Ok mid
    /\ convert_state_dict (keys_of mid) mid = Ok out
    /\ out !! block0_norm1 weight = Some (ln_0 weight)
    /\ out !! block0_norm1 bias = Some (ln_0 bias).
Proof.
  assert (0 < num_hidden_layers config_two_layers) as Hpos by reflexivity.
  destruct (sentinel_lands_in_block0_norm1 config_two_layers (legacy_example 2)
              Hpos (legacy_example_layout 2))
    as (mid & Hrun & _ & _ & _ & _ & Hconv).
  destruct (Hconv (keys_of mid) (enumerates_keys_of mid)) as (out & Hout & Hx).
  exists mid, out. split; [exact Hrun|]. split; [exact Hout|]. split.
  - rewrite (Hx weight). vm_compute. reflexivity.
  - rewrite (Hx bias). vm_compute. reflexivity.
Defined.

Lemma get_h3_config_spec_witness :
  get_h3_config "H3-6.7b" = Raise (UnboundLocalError "hidden_size").
Proof.
  apply (get_h3_config_spec "H3-6.7b").
  rewrite !not_elem_of_cons. repeat split; try discriminate.
  apply not_elem_of_nil.
Defined.

Lemma verify_logits_gate_witness :
  verify_logits (fun (_ : unit) _ _ => false) "H3-2.7b" tt = Ok tt.
Proof.
  apply (verify_logits_gate (fun (_ : unit) _ _ => false) "H3-2.7b" tt).
  rewrite !not_elem_of_cons. repeat split; try discriminate.
  apply not_elem_of_nil.
Defined.

Lemma unwrap_lightning_spec_witness :
  exists out,
    unwrap_lightning keys_of lightning_example = Ok out
    /\ out !! "backbone.ln_f.weight" = Some (Tensor "ln_f.weight")
    /\ out !! "loss_fn.weight" = None.
Proof.
  destruct (unwrap_lightning_spec keys_of lightning_example lightning_state)
    as (out & Hrun & Hout & _).
  - eexists. vm_compute. reflexivity.
  - vm_compute. reflexivity.
  - apply enumerates_keys_of.
  - exists out. split; [exact Hrun|]. split.
    + rewrite Hout. vm_compute. reflexivity.
    + rewrite Hout. vm_compute. reflexivity.
Defined.

Lemma rename_key_by_pattern_witness :
  rename_key "lm_head.weight" = "lm_head.weight"
  /\ rename_key "backbone.embeddings.word_embeddings.weight"
     = "h3.embeddings.word_embeddings.weight"
  /\ rename_key "backbone.layers.3.mixer.kernel.B"
     = "h3.blocks.3.mixer.kernel.B"
  /\ rename_key "backbone.ln_f.bias" = "h3.final_layernorm.bias"
  /\ rename_key "encoder.backbone.layers.1.backbone.layers.2.weight"
     = "encoder.h3.blocks.1.h3.blocks.2.weight".
Proof.
  split; [|split; [|split; [|split]]].
  - destruct (rename_key_by_pattern "lm_head.weight") as (H & _).
    by apply H.
  - destruct (rename_key_by_pattern
                "backbone.embeddings.word_embeddings.weight")
      as (_ & H & _).
    destruct (H eq_refl eq_refl eq_refl) as (_ & _ & _ & Hsegs).
    apply (Hsegs [EmptyString; ".embeddings.word_embeddings.weight"]).
    split; [reflexivity|]. by repeat constructor.
  - destruct (rename_key_by_pattern "backbone.layers.3.mixer.kernel.B")
      as (_ & _ & H & _).
    destruct (H eq_refl eq_refl eq_refl) as (_ & _ & _ & Hsegs).
    apply (Hsegs [EmptyString; ".3.mixer.kernel.B"]).
    split; [reflexivity|]. by repeat constructor.
  - destruct (rename_key_by_pattern "backbone.ln_f.bias") as (_ & _ & _ & H).
    destruct (H eq_refl eq_refl eq_refl) as (_ & _ & _ & Hsegs).
    apply (Hsegs [EmptyString; ".bias"]).
    split; [reflexivity|]. by repeat constructor.
  - destruct (rename_key_by_pattern
                "encoder.backbone.layers.1.backbone.layers.2.weight")
      as (_ & _ & H & _).
    destruct (H eq_refl eq_refl eq_refl) as (_ & _ & _ & Hsegs).
    apply (Hsegs ["encoder."; ".1."; ".2.weight"]).
    split; [reflexivity|]. by repeat constructor.
Defined.

End Witnesses.

(** * Further properties of the code *)

(** ** More on the string operations *)

Module PyStrMore.

Lemma no_clash_startswith t q x :
  no_clash t q = true -> t <> EmptyString -> startswith (t +:+ x) q = false.
Proof.
  destruct t as [|c t]; [done|]. intros H _. unfold no_clash in H.
  cbn [suffixes forallb] in H.
  apply andb_true_iff in H as [H _].
  apply andb_true_iff in H as [H1%negb_true_iff H2%negb_true_iff].
  destruct (startswith (String c t +:+ x) q) eqn:E; [|done].
  apply startswith_app_cases in E as [E|E]; congruence.
Qed.

Lemma no_clash_tail c t q : no_clash (String c t) q = true -> no_clash t q = true.
Proof. unfold no_clash. cbn [suffixes forallb]. by intros [_ H]%andb_true_iff. Qed.

(** An occurrence of [q] in [t +:+ x] lies in [x] when [t] does not clash
    with [q]. *)
Lemma contains_app_no_clash t q x :
  no_clash t q = true -> contains q (t +:+ x) = contains q x.
Proof.
  intros H. induction t as [|c t IH]; [done|].
  change (String c t +:+ x) with (String c (t +:+ x)). cbn [contains].
  change (String c (t +:+ x)) with (String c t +:+ x).
  rewrite no_clash_startswith by done.
  apply IH. by eapply no_clash_tail.
Qed.

(** The same when [t] lacks the first character of [q]. *)
Lemma contains_app_no_head h q t x :
  has_char h t = false ->
  contains (String h q) (t +:+ x) = contains (String h q) x.
Proof.
  induction t as [|c t IH]; [done|]. cbn [has_char].
  intros [Hc Ht]%orb_false_iff.
  change (String c t +:+ x) with (String c (t +:+ x)).
  cbn [contains startswith]. by rewrite Hc, IH.
Qed.

(** [replace] copies a stretch that does not clash with [old]. *)
Lemma replace_app_no_clash t a o new x :
  no_clash t (String a o) = true ->
  replace (t +:+ x) (String a o) new = t +:+ replace x (String a o) new.
Proof.
  intros H. induction t as [|c t IH]; [done|].
  change (String c t +:+ x) with (String c (t +:+ x)).
  rewrite replace_skip.
  - rewrite IH by (by eapply no_clash_tail). done.
  - change (String c (t +:+ x)) with (String c t +:+ x).
    by apply no_clash_startswith.
Qed.

(** An output that starts with a text without the first character of [new]
    comes from an input that starts with the same text. *)
Lemma replace_inv_prefix u a o h r s t :
  has_char h u = false ->
  replace s (String a o) (String h r) = u +:+ t ->
  exists s', s = u +:+ s' /\ replace s' (String a o) (String h r) = t.
Proof.
  revert s; induction u as [|c u IH]; intros s Hu H; [by exists s|].
  cbn [has_char] in Hu. apply orb_false_iff in Hu as [Hc Hu].
  destruct s as [|d s]; [done|].
  destruct (startswith (String d s) (String a o)) eqn:E.
  - rewrite replace_match in H by done.
    injection H as -> _. by rewrite Ascii.eqb_refl in Hc.
  - apply (replace_skip_inv _ _ _ _ _ c (u +:+ t)) in H as [-> H]; [|done].
    destruct (IH _ Hu H) as (s' & -> & Hs'). by exists s'.
Qed.

(** The decimal form of a number [>= 0] has digits only. *)
Lemma pretty_N_char_digit (y : N) :
  (y < 10)%N -> has_char (pretty_N_char y) "0123456789" = true.
Proof.
  intros Hy.
  assert (y = 0 \/ y = 1 \/ y = 2 \/ y = 3 \/ y = 4 \/ y = 5 \/ y = 6
          \/ y = 7 \/ y = 8 \/ y = 9)%N as Hcases by lia.
  destruct_or!; by subst.
Qed.

Lemma pretty_N_go_no_char c x s :
  has_char c "0123456789" = false ->
  has_char c s = false -> has_char c (pretty_N_go x s) = false.
Proof.
  intros Hc. revert s. induction (N.lt_wf_0 x) as [x _ IH]; intros s Hs.
  destruct (decide (x = 0)%N) as [->|Hx]; [done|].
  rewrite pretty_N_go_step by lia. apply IH.
  - apply N.div_lt; lia.
  - cbn [has_char]. rewrite Hs, orb_false_r.
    destruct (Ascii.eqb_spec c (pretty_N_char (x `mod` 10))) as [->|]; [|done].
    rewrite pretty_N_char_digit in Hc; [done|]. apply N.mod_lt. lia.
Qed.

Lemma pretty_Z_no_char c (l : Z) :
  0 <= l -> has_char c "0123456789" = false -> has_char c (pretty l) = false.
Proof.
  intros Hl Hc. destruct l as [|p|p]; [|clear Hl|lia].
  - change (pretty 0) with "0".
    cbn [has_char] in *. rewrite !orb_false_iff in Hc.
    destruct Hc as [-> _]. done.
  - unfold pretty, pretty_Z, pretty, pretty_positive, pretty, pretty_N.
    case_decide; [done|]. by apply pretty_N_go_no_char.
Qed.

End PyStrMore.

Import PyStrMore.

(** ** More on [rename_key] *)

#[local] Transparent layer_key.

Lemma layer_key_unfold l s :
  layer_key l s = "backbone.layers." +:+ (pretty l +:+ s).
Proof. reflexivity. Qed.

Lemma block_key_unfold l s : block_key l s = "h3.blocks." +:+ (pretty l +:+ s).
Proof. reflexivity. Qed.

#[local] Opaque layer_key block_key.

Section RenameMore.

Lemma rename_key_layers_prefix rest :
  contains "backbone" rest = false ->
  rename_key ("backbone.layers." +:+ rest) = "h3.blocks." +:+ rest.
Proof.
  intros H. destruct (no_backbone_no_trigger rest H) as (H1 & H2 & H3).
  rewrite rename_key_layers_rule.
  - change ("backbone.layers." +:+ rest)
      with ("backbone.layers" +:+ ("." +:+ rest)).
    rewrite replace_app_old, replace_absent; [done|].
    by rewrite contains_app_no_clash.
  - by rewrite contains_app_no_clash.
  - done.
  - by rewrite contains_app_no_clash.
Qed.

Lemma rename_key_ln_f_prefix rest :
  contains "backbone" rest = false ->
  rename_key ("backbone.ln_f" +:+ rest) = "h3.final_layernorm" +:+ rest.
Proof.
  intros H. destruct (no_backbone_no_trigger rest H) as (H1 & H2 & H3).
  rewrite rename_key_ln_f_rule.
  - by rewrite replace_app_old, replace_absent.
  - by rewrite contains_app_no_clash.
  - by rewrite contains_app_no_clash.
  - done.
Qed.

Lemma rename_key_embeddings_prefix rest :
  rename_key ("backbone.embeddings" +:+ rest)
  = "h3.embeddings" +:+ replace rest "backbone" "h3".
Proof.
  rewrite rename_key_embeddings_rule by done.
  change ("backbone.embeddings" +:+ rest)
    with ("backbone" +:+ (".embeddings" +:+ rest)).
  by rewrite replace_app_old, replace_app_no_clash.
Qed.

Lemma rename_key_layer_key l s :
  0 <= l -> contains "backbone" s = false ->
  rename_key (layer_key l s) = block_key l s.
Proof.
  intros Hl Hs. rewrite layer_key_unfold, block_key_unfold.
  apply rename_key_layers_prefix.
  rewrite contains_app_no_head; [done|]. by apply pretty_Z_no_char.
Qed.

(** If the output of a [replace] is [new +:+ rest], and [rest] lacks some
    character of [new], the input was [old +:+ rest] or the output itself. *)
Lemma replace_inv_head c a o h r rest s :
  has_char c (String h r) = true -> has_char c rest = false ->
  has_char h r = false ->
  replace s (String a o) (String h r) = String h r +:+ rest ->
  s = String a o +:+ rest \/ s = String h r +:+ rest.
Proof.
  intros Hc Hrest Hr H. destruct s as [|d s]; [done|].
  destruct (startswith (String d s) (String a o)) eqn:E.
  - left. rewrite replace_match in H by done.
    apply (inj (String.app (String h r))) in H.
    apply (replace_inv_no_new c) in H as [H _]; [|done..].
    by rewrite (startswith_split _ _ E), H.
  - right.
    apply (replace_skip_inv _ _ _ _ _ h (r +:+ rest)) in H as [-> H]; [|done].
    apply replace_inv_prefix in H as (s' & -> & H); [|done].
    by apply (replace_inv_no_new c) in H as [-> _].
Qed.

(** Only ["backbone.layers." +:+ rest] and the key itself are renamed to
    ["h3.blocks." +:+ rest], for a [rest] without [d], [f] and [k]. *)
Lemma rename_key_block_preimage rest k :
  has_char "d" rest = false -> has_char "f" rest = false ->
  has_char "k" rest = false ->
  rename_key k = "h3.blocks." +:+ rest ->
  k = "h3.blocks." +:+ rest \/ k = "backbone.layers." +:+ rest.
Proof.
  intros Hd Hf Hk H.
  destruct (contains "backbone.embeddings" k) eqn:E1.
  { rewrite rename_key_embeddings_rule in H by done.
    assert (has_char "d" (replace k "backbone" "h3") = true) as Hc.
    { apply replace_has_char_old; [done|].
      by apply (contains_has_char _ _ _ E1). }
    rewrite H, has_char_app, Hd in Hc. done. }
  unfold rename_key in H. rewrite E1 in H.
  set (n2 := if contains "backbone.layers" k
             then replace k "backbone.layers" "h3.blocks" else k) in *.
  destruct (contains "backbone.ln_f" n2) eqn:E3.
  { assert (has_char "f" (replace n2 "backbone.ln_f" "h3.final_layernorm") = true)
      as Hc by (by apply replace_has_char_new).
    rewrite H, has_char_app, Hf in Hc. done. }
  subst n2. destruct (contains "backbone.layers" k) eqn:E2; [|by left].
  change ("h3.blocks." +:+ rest) with ("h3.blocks" +:+ ("." +:+ rest)) in H.
  apply (replace_inv_head "k") in H as [->| ->]; [by right|by left|done| |done].
  by rewrite has_char_app, Hk.
Qed.

(** Only ["backbone.ln_f" +:+ rest] and the key itself are renamed to
    ["h3.final_layernorm" +:+ rest], for a [rest] without [d], [f], [c], [3]
    and with no ["backbone.ln_f"] in the key itself. *)
Lemma rename_key_final_preimage_gen rest k :
  has_char "d" rest = false -> has_char "f" rest = false ->
  has_char "c" rest = false -> has_char "3" rest = false ->
  rename_key k = "h3.final_layernorm" +:+ rest ->
  k = "h3.final_layernorm" +:+ rest \/ k = "backbone.ln_f" +:+ rest.
Proof.
  intros Hd Hf Hc H3 H.
  destruct (contains "backbone.embeddings" k) eqn:E1.
  { rewrite rename_key_embeddings_rule in H by done.
    assert (has_char "d" (replace k "backbone" "h3") = true) as Hx.
    { apply replace_has_char_old; [done|].
      by apply (contains_has_char _ _ _ E1). }
    rewrite H, has_char_app, Hd in Hx. done. }
  unfold rename_key in H. rewrite E1 in H.
  destruct (contains "backbone.layers" k) eqn:E2.
  - exfalso.
    set (n2 := replace k "backbone.layers" "h3.blocks") in *.
    assert (has_char "3" n2 = true) as Hn3 by (by apply replace_has_char_new).
    assert (has_char "c" n2 = true) as Hnc by (by apply replace_has_char_new).
    destruct (contains "backbone.ln_f" n2) eqn:E3.
    + apply (replace_inv_head "f") in H as [Hn|Hn]; [| |done..].
      * rewrite Hn, has_char_app, H3 in Hn3. done.
      * rewrite Hn, has_char_app, Hc in Hnc. done.
    + rewrite H, has_char_app, Hc in Hnc. done.
  - destruct (contains "backbone.ln_f" k) eqn:E3; [|by left].
    apply (replace_inv_head "f") in H as [->| ->]; [by right|by left|done..].
Qed.

Lemma rename_key_final_preimage x k :
  rename_key k = final_layernorm x -> k = final_layernorm x \/ k = ln_f x.
Proof.
  destruct x.
  - by apply (rename_key_final_preimage_gen ".weight").
  - by apply (rename_key_final_preimage_gen ".bias").
Qed.

Lemma norm_suffix_chars c (l : Z) s :
  0 <= l -> has_char c "0123456789" = false -> has_char c s = false ->
  has_char c (pretty l +:+ s) = false.
Proof. intros. by rewrite has_char_app, pretty_Z_no_char. Qed.

Lemma rename_key_block_key_preimage l s k :
  0 <= l ->
  has_char "d" s = false -> has_char "f" s = false -> has_char "k" s = false ->
  rename_key k = block_key l s -> k = block_key l s \/ k = layer_key l s.
Proof.
  intros Hl Hd Hf Hk. rewrite block_key_unfold, layer_key_unfold.
  apply rename_key_block_preimage; by apply norm_suffix_chars.
Qed.

End RenameMore.

(** ** More on the renaming loop *)

Section ConvertMore.
Context {V : Type}.
Implicit Types (sd D out : gmap string V) (ks : list string).

(** The loop on any dict: every visited key has its renamed key in the dict,
    and every entry is an entry of the start under its renamed key, or one
    that is still to be visited. *)
Lemma convert_state_dict_sound_loop sd rest : forall done D,
  NoDup rest ->
  (forall k, k ∈ rest -> is_Some (D !! k)) ->
  (forall k0, k0 ∈ done -> is_Some (D !! rename_key k0)) ->
  (forall k v, D !! k = Some v ->
     (exists k0, k0 ∈ done /\ rename_key k0 = k /\ sd !! k0 = Some v)
     \/ (k ∈ rest /\ sd !! k = Some v)) ->
  exists out,
    convert_state_dict rest D = Ok out
    /\ (forall k0, k0 ∈ done ++ rest -> is_Some (out !! rename_key k0))
    /\ (forall k v, out !! k = Some v ->
          exists k0, k0 ∈ done ++ rest /\ rename_key k0 = k /\ sd !! k0 = Some v).
Proof.
  induction rest as [|key rest IH]; intros done D Hnd Hrest Hdone HD.
  { exists D. rewrite app_nil_r. split; [done|]. split; [done|].
    intros k v Hk. destruct (HD k v Hk) as [?|[[]%elem_of_nil _]]. done. }
  apply NoDup_cons in Hnd as [Hkey Hnd].
  destruct (Hrest key) as [v Hv]; [left|].
  rewrite (convert_state_dict_cons _ _ _ _ Hv).
  replace (done ++ key :: rest) with ((done ++ [key]) ++ rest)
    by (by rewrite <-app_assoc).
  assert (forall k0, k0 ∈ done -> rename_key k0 = key -> rename_key key = key)
    as Hcap.
  { intros k0 _ <-. apply rename_key_twice. }
  apply IH; [done|..].
  - intros k Hk. destruct (decide (rename_key key = k)) as [->|Hne].
    + rewrite lookup_insert_eq. eauto.
    + rewrite lookup_insert_ne, lookup_delete_ne by congruence.
      apply Hrest. by right.
  - intros k0 [Hk0|Hk0%list_elem_of_singleton]%elem_of_app.
    + destruct (decide (rename_key key = rename_key k0)) as [->|Hne].
      { rewrite lookup_insert_eq. eauto. }
      rewrite lookup_insert_ne by done.
      rewrite lookup_delete_ne; [by apply Hdone|].
      intros Heq. apply Hne. symmetry in Heq.
      rewrite (Hcap k0 Hk0 Heq). done.
    + subst k0. rewrite lookup_insert_eq. eauto.
  - intros k w. destruct (decide (rename_key key = k)) as [<-|Hne].
    + rewrite lookup_insert_eq. intros [= <-]. left.
      destruct (HD key v Hv) as [(k0 & Hk0 & Heq & Hw)|[_ Hw]].
      * exists k0. split; [apply elem_of_app; by left|].
        split; [|done]. by rewrite (Hcap k0 Hk0 Heq).
      * exists key. split; [apply elem_of_app; right; left|done].
    + rewrite lookup_insert_ne by done.
      destruct (decide (key = k)) as [<-|Hne'].
      { by rewrite lookup_delete_eq. }
      rewrite lookup_delete_ne by done. intros Hk.
      destruct (HD k w Hk) as [(k0 & Hk0 & Heq & Hw)|[Hin Hw]].
      * left. exists k0. split; [apply elem_of_app; by left|done].
      * right. split; [|done].
        apply elem_of_cons in Hin as [?|?]; [congruence|done].
Qed.

Lemma convert_state_dict_sound sd ks :
  enumerates ks sd ->
  exists out,
    convert_state_dict ks sd = Ok out
    /\ (forall k0, is_Some (sd !! k0) -> is_Some (out !! rename_key k0))
    /\ (forall k v, out !! k = Some v ->
          exists k0, rename_key k0 = k /\ sd !! k0 = Some v).
Proof.
  intros [Hnd Hks].
  destruct (convert_state_dict_sound_loop sd ks [] sd) as (out & Hrun & H1 & H2).
  - done.
  - intros k Hk. by apply Hks.
  - by intros k0 []%elem_of_nil.
  - intros k v Hk. right. split; [|done]. apply Hks. eauto.
  - exists out. split; [done|]. split.
    + intros k0 Hk0. apply H1. simpl. by apply Hks.
    + intros k v Hk. destruct (H2 k v Hk) as (k0 & _ & ? & ?). eauto.
Qed.

(** The loop never makes the dict larger. *)
Lemma convert_state_dict_size ks : forall D out,
  convert_state_dict ks D = Ok out -> (size out <= size D)%nat.
Proof.
  induction ks as [|key ks IH]; intros D out Hrun.
  { by injection Hrun as ->. }
  cbn [convert_state_dict] in Hrun. unfold pop in Hrun.
  destruct (D !! key) as [v|] eqn:Hv; [|done].
  rewrite bind_Ok in Hrun. apply IH in Hrun.
  etrans; [exact Hrun|].
  rewrite map_size_insert. rewrite <-(size_delete_S key D) by eauto.
  destruct (delete key D !! rename_key key); simpl; lia.
Qed.

(** On keys that [rename_key] leaves alone the loop changes nothing. *)
Lemma convert_state_dict_id ks : forall sd,
  (forall k, k ∈ ks -> is_Some (sd !! k) /\ rename_key k = k) ->
  convert_state_dict ks sd = Ok sd.
Proof.
  induction ks as [|key ks IH]; intros sd Hks; [done|].
  destruct (Hks key) as [[v Hv] Hfix]; [left|].
  rewrite (convert_state_dict_cons _ _ _ _ Hv), Hfix.
  rewrite insert_delete_id by done. apply IH.
  intros k Hk. apply Hks. by right.
Qed.

(** A key [K] that is neither visited nor renamed to is not touched. *)
Lemma convert_state_dict_untouched K ks : forall D out,
  (forall k, k ∈ ks -> rename_key k <> K /\ k <> K) ->
  convert_state_dict ks D = Ok out ->
  out !! K = D !! K.
Proof.
  induction ks as [|key ks IH]; intros D out Hks Hrun.
  { by injection Hrun as ->. }
  cbn [convert_state_dict] in Hrun. unfold pop in Hrun.
  destruct (D !! key) as [v|] eqn:Hv; [|done].
  rewrite bind_Ok in Hrun. apply IH in Hrun.
  - destruct (Hks key) as [? ?]; [left|].
    by rewrite Hrun, lookup_insert_ne, lookup_delete_ne.
  - intros k Hk. apply Hks. by right.
Qed.

(** An entry whose renamed key no other visited key shares arrives under
    that key with its value. *)
Lemma convert_state_dict_unique k0 ks : forall D out,
  NoDup ks -> k0 ∈ ks ->
  (forall k, k ∈ ks -> rename_key k = rename_key k0 -> k = k0) ->
  convert_state_dict ks D = Ok out ->
  out !! rename_key k0 = D !! k0.
Proof.
  induction ks as [|key ks IH]; intros D out Hnd Hin Huniq Hrun.
  { by apply elem_of_nil in Hin. }
  apply NoDup_cons in Hnd as [Hkey Hnd].
  cbn [convert_state_dict] in Hrun. unfold pop in Hrun.
  destruct (D !! key) as [v|] eqn:Hv; [|done].
  rewrite bind_Ok in Hrun.
  destruct (decide (key = k0)) as [->|Hne].
  - apply (convert_state_dict_untouched (rename_key k0)) in Hrun.
    { by rewrite Hrun, lookup_insert_eq. }
    intros k Hk. split.
    + intros Heq. apply Huniq in Heq; [|by right]. by subst k.
    + intros ->. apply Hkey.
      rewrite <-(Huniq (rename_key k0)); [done|by right|].
      apply rename_key_twice.
  - apply elem_of_cons in Hin as [?|Hin]; [congruence|].
    apply IH in Hrun; [|done|done|intros k Hk; apply Huniq; by right].
    rewrite Hrun, lookup_insert_ne, lookup_delete_ne; [done..|].
    intros Heq. apply Hne, Huniq; [left|].
    rewrite <-Heq. symmetry. apply rename_key_twice.
Qed.

End ConvertMore.

(** ** Properties of [rename_key] and [convert_state_dict] *)

Section RenamingProperties.
Context {V : Type}.
Implicit Types (sd out : gmap string V) (ks : list string).

(** X1. On any dict and in any order of the keys, [convert_state_dict]
    returns: it never raises. The keys of the result are exactly the renamed
    keys of the input, every value of the result is the value of an input key
    that is renamed to its key, and the result has at most as many entries as
    the input. *)
Theorem convert_state_dict_keys_and_values sd ks :
  enumerates ks sd ->
  exists out,
    convert_state_dict ks sd = Ok out
    /\ (forall k, is_Some (out !! k)
                  <-> exists k0, is_Some (sd !! k0) /\ rename_key k0 = k)
    /\ (forall k v, out !! k = Some v ->
          exists k0, rename_key k0 = k /\ sd !! k0 = Some v)
    /\ (size out <= size sd)%nat.
Proof.
  intros Hks.
  destruct (convert_state_dict_sound sd ks Hks) as (out & Hrun & H1 & H2).
  exists out. split; [done|]. split; [|split; [done|]].
  - intros k. split.
    + intros [v Hv]. destruct (H2 k v Hv) as (k0 & ? & ?). eauto.
    + intros (k0 & Hk0 & <-). by apply H1.
  - by apply (convert_state_dict_size ks).
Qed.

(** X2. After [convert_state_dict] no key holds ["backbone.embeddings"],
    ["backbone.layers"] or ["backbone.ln_f"]. *)
Theorem convert_state_dict_no_source_names sd ks :
  enumerates ks sd ->
  exists out,
    convert_state_dict ks sd = Ok out
    /\ forall k, is_Some (out !! k) ->
         contains "backbone.embeddings" k = false
         /\ contains "backbone.layers" k = false
         /\ contains "backbone.ln_f" k = false.
Proof.
  intros Hks.
  destruct (convert_state_dict_sound sd ks Hks) as (out & Hrun & _ & H2).
  exists out. split; [done|]. intros k [v Hv].
  destruct (H2 k v Hv) as (k0 & <- & _). apply rename_key_clean.
Qed.

(** X3. A second pass of [convert_state_dict] over its own result changes
    nothing, in whatever order it visits the keys. *)
Theorem convert_state_dict_second_pass sd ks :
  enumerates ks sd ->
  exists out,
    convert_state_dict ks sd = Ok out
    /\ forall ks', enumerates ks' out -> convert_state_dict ks' out = Ok out.
Proof.
  intros Hks.
  destruct (convert_state_dict_sound sd ks Hks) as (out & Hrun & _ & H2).
  exists out. split; [done|]. intros ks' [_ Hks'].
  apply convert_state_dict_id. intros k Hk.
  apply Hks' in Hk. split; [done|]. destruct Hk as [v Hv].
  destruct (H2 k v Hv) as (k0 & <- & _). apply rename_key_twice.
Qed.

(** X4. An entry whose renamed key is the renamed key of no other entry
    arrives under that key with its value, in any order of the keys and
    whatever the other entries collide on. *)
Theorem convert_state_dict_unique_key sd ks k0 :
  enumerates ks sd ->
  is_Some (sd !! k0) ->
  (forall k, is_Some (sd !! k) -> rename_key k = rename_key k0 -> k = k0) ->
  exists out,
    convert_state_dict ks sd = Ok out /\ out !! rename_key k0 = sd !! k0.
Proof.
  intros Hks Hk0 Huniq.
  destruct (convert_state_dict_sound sd ks Hks) as (out & Hrun & _).
  destruct Hks as [Hnd Hks].
  exists out. split; [done|].
  apply (convert_state_dict_unique k0 ks sd out); [done|by apply Hks| |done].
  intros k Hk. apply Huniq. by apply Hks.
Qed.

End RenamingProperties.

(** X5. A key that starts with ["backbone.layers."], ["backbone.ln_f"] or
    ["backbone.embeddings"] and has no further ["backbone"] gets the prefix
    ["h3.blocks."], ["h3.final_layernorm"] or ["h3.embeddings"] and keeps its
    rest. *)
Theorem rename_key_prefixes (rest : string) :
  contains "backbone" rest = false ->
  rename_key ("backbone.layers." +:+ rest) = "h3.blocks." +:+ rest
  /\ rename_key ("backbone.ln_f" +:+ rest) = "h3.final_layernorm" +:+ rest
  /\ rename_key ("backbone.embeddings" +:+ rest) = "h3.embeddings" +:+ rest.
Proof.
  intros H. split; [|split].
  - by apply rename_key_layers_prefix.
  - by apply rename_key_ln_f_prefix.
  - by rewrite rename_key_embeddings_prefix, replace_absent.
Qed.

(** X6. The keys that the layer-norm update leaves in the dict are renamed
    to the keys of the destination for the same layer: [norm1] and [norm2]
    of layer [l] to ["h3.blocks.{l}.norm1"] and ["h3.blocks.{l}.norm2"],
    ["backbone.ln_f"] to ["h3.final_layernorm"], and ["h3.blocks.0.norm1"]
    to itself. *)
Theorem rename_key_layer_norms (l : Z) (x : field) :
  0 <= l ->
  rename_key (norm1 l x) = block_norm1 l x
  /\ rename_key (norm2 l x) = block_norm2 l x
  /\ rename_key (ln_f x) = final_layernorm x
  /\ rename_key (block0_norm1 x) = block_norm1 0 x.
Proof.
  intros Hl. unfold norm1, norm2, block_norm1, block_norm2.
  split; [|split; [|split]].
  - destruct x; by apply rename_key_layer_key.
  - destruct x; by apply rename_key_layer_key.
  - by destruct x.
  - destruct x; by vm_compute.
Qed.

(** X7. When a key holds ["backbone.embeddings"], every ["backbone"] in it
    becomes ["h3"] and the other two rules are not applied, whatever else
    the key holds; no ["backbone"] is left. *)
Theorem rename_key_embeddings_first (name : string) :
  contains "backbone.embeddings" name = true ->
  rename_key name = replace name "backbone" "h3"
  /\ contains "backbone" (rename_key name) = false.
Proof.
  intros H. rewrite rename_key_embeddings_rule by done.
  split; [done|apply rule1_removes_backbone].
Qed.

(** X8. No foreign key is renamed onto a layer-norm key of the destination:
    a key renamed to ["h3.blocks.{l}.norm1"], ["h3.blocks.{l}.norm2"] or
    ["h3.final_layernorm"] is that key itself or the matching
    ["backbone.layers.{l}"] or ["backbone.ln_f"] key. *)
Theorem rename_key_layer_norm_preimage (l : Z) (x : field) (k : string) :
  0 <= l ->
  (rename_key k = block_norm1 l x -> k = block_norm1 l x \/ k = norm1 l x)
  /\ (rename_key k = block_norm2 l x -> k = block_norm2 l x \/ k = norm2 l x)
  /\ (rename_key k = final_layernorm x -> k = final_layernorm x \/ k = ln_f x).
Proof.
  intros Hl. unfold norm1, norm2, block_norm1, block_norm2.
  split; [|split].
  - destruct x; by apply rename_key_block_key_preimage.
  - destruct x; by apply rename_key_block_key_preimage.
  - apply rename_key_final_preimage.
Qed.

(** ** Properties of the layer-norm update *)

Section UpdateProperties.
Context {V : Type}.
Implicit Types (sd out : gmap string V) (config : H3Config).

Lemma update_state_dict_cases config sd :
  0 < num_hidden_layers config ->
  ((exists out, update_state_dict config sd = Ok out)
   /\ (is_Some (sd !! "backbone.ln_0.weight") ->
       legacy_layout (num_hidden_layers config) sd))
  \/ exists k,
       update_state_dict config sd = Raise (KeyError k) /\ sd !! k = None
       /\ is_legacy_key (num_hidden_layers config) k.
Proof.
  intros HL. destruct (sd !! "backbone.ln_0.weight") as [v|] eqn:Hs.
  - rewrite update_state_dict_legacy by eauto.
    destruct (reindex_norms_cases (num_hidden_layers config) sd HL)
      as [[Hok Hlay]|?]; [left|by right].
    by split.
  - left. rewrite update_state_dict_plain by done.
    split; [by eexists|]. by intros [? ?].
Qed.

(** X9. The update touches the layer-norm keys only: every key outside the
    legacy layer-norm keys, ["backbone.ln_f"] and ["h3.blocks.0.norm1"] has
    afterwards what it had before. The keys of ["backbone.ln_0"] and of
    [norm1] of layer 0 are gone, and when the dict had nothing under
    ["backbone.ln_f"] and ["h3.blocks.0.norm1"] the number of entries is the
    same. *)
Theorem update_state_dict_frame config sd :
  let L := num_hidden_layers config in
  0 < L -> legacy_layout L sd ->
  exists out,
    update_state_dict config sd = Ok out
    /\ (forall k,
          ~ is_legacy_key L k ->
          (forall x, k <> ln_f x /\ k <> block0_norm1 x) ->
          out !! k = sd !! k)
    /\ (forall x, out !! ln_0 x = None /\ out !! norm1 0 x = None)
    /\ ((forall x, sd !! ln_f x = None /\ sd !! block0_norm1 x = None) ->
        size out = size sd).
Proof.
  intros L HL Hsd.
  destruct (reindex_norms_spec L sd HL Hsd)
    as (out & Hrun & _ & _ & _ & _ & Hgone & Hframe & Hsize).
  exists out. split.
  { rewrite update_state_dict_legacy; [done|].
    exact (legacy_layout_ln_0 L sd weight Hsd). }
  split; [|split; [|done]].
  - intros k Hk Hnew. apply Hframe.
    + intros x. destruct (Hnew x) as [? ?]. split; [done|]. split; [|done].
      intros ->. apply Hk. left. by exists x.
    + intros l x Hl. split; intros ->; apply Hk; right; exists l, x; auto.
  - intros x. by destruct (Hgone x).
Qed.

(** X10. On a dict that has ["backbone.ln_0.weight"], the update returns
    exactly when the dict has the whole legacy layout: both fields of
    ["backbone.ln_0"] and of [norm1] and [norm2] of every layer. *)
Theorem update_state_dict_returns_iff config sd :
  let L := num_hidden_layers config in
  0 < L -> is_Some (sd !! "backbone.ln_0.weight") ->
  (exists out, update_state_dict config sd = Ok out) <-> legacy_layout L sd.
Proof.
  intros L HL Hs. split.
  - intros [out Hout].
    destruct (update_state_dict_cases config sd HL)
      as [[_ Hlay]|(k & Hraise & _)]; [by apply Hlay|congruence].
  - intros Hsd.
    destruct (reindex_norms_spec L sd HL Hsd) as (out & Hrun & _).
    exists out. by rewrite update_state_dict_legacy.
Qed.

(** X11. The only exception of the update is [KeyError], and its key is a
    key of the legacy layout that the dict does not have. *)
Theorem update_state_dict_raises config sd e :
  0 < num_hidden_layers config ->
  update_state_dict config sd = Raise e ->
  exists k,
    e = KeyError k /\ sd !! k = None
    /\ is_legacy_key (num_hidden_layers config) k.
Proof.
  intros HL Hraise.
  destruct (update_state_dict_cases config sd HL)
    as [[[out Hout] _]|(k & Hk & Hnone & Hleg)]; [congruence|].
  exists k. split; [congruence|done].
Qed.

End UpdateProperties.

(** ** Properties of the configuration and of the driver *)

Lemma get_h3_config_Ok model_name config :
  get_h3_config model_name = Ok config ->
  model_name ∈ model_name_choices
  /\ 0 < num_hidden_layers config
  /\ Forall (fun i => 0 <= i < num_hidden_layers config) (attn_layer_idx config)
  /\ 0 < num_attention_heads config
  /\ (hidden_size config) `mod` (num_attention_heads config) = 0.
Proof.
  unfold get_h3_config, model_name_choices.
  destruct (String.eqb_spec model_name "H3-125m") as [->|_].
  { intros [= <-]. split; [set_solver|]. repeat split; try done.
    repeat constructor; done. }
  destruct (String.eqb_spec model_name "H3-355m") as [->|_].
  { intros [= <-]. split; [set_solver|]. repeat split; try done.
    repeat constructor; done. }
  destruct (String.eqb_spec model_name "H3-1.3b") as [->|_].
  { intros [= <-]. split; [set_solver|]. repeat split; try done.
    repeat constructor; done. }
  destruct (String.eqb_spec model_name "H3-2.7b") as [->|_]; [|done].
  intros [= <-]. split; [set_solver|]. repeat split; try done.
  repeat constructor; done.
Qed.

Lemma get_h3_config_choice model_name :
  model_name ∈ model_name_choices -> exists config, get_h3_config model_name = Ok config.
Proof.
  unfold model_name_choices. rewrite !elem_of_cons, elem_of_nil.
  intros [->|[->|[->|[->|[]]]]]; by eexists.
Qed.

Lemma checkpoint_location_choice model_name :
  model_name ∈ model_name_choices ->
  exists loc, checkpoint_location model_name = Ok loc.
Proof.
  unfold model_name_choices. rewrite !elem_of_cons, elem_of_nil.
  intros [->|[->|[->|[->|[]]]]]; by eexists.
Qed.

Lemma checkpoint_location_unknown model_name :
  model_name ∉ model_name_choices ->
  checkpoint_location model_name = Raise (KeyError model_name).
Proof.
  intros Hname. unfold checkpoint_location, getitem.
  assert (model_name_to_repo_id !! model_name = None) as ->; [|done].
  by apply not_elem_of_list_to_map_1.
Qed.

(** X12. Every configuration that [get_h3_config] returns has at least one
    layer, attention layers that are layers of the model, and a hidden size
    that the number of heads divides. *)
Theorem get_h3_config_well_formed (model_name : string) (config : H3Config) :
  get_h3_config model_name = Ok config ->
  0 < num_hidden_layers config
  /\ Forall (fun i => 0 <= i < num_hidden_layers config) (attn_layer_idx config)
  /\ 0 < num_attention_heads config
  /\ (hidden_size config) `mod` (num_attention_heads config) = 0.
Proof. intros H. by destruct (get_h3_config_Ok _ _ H) as (_ & ?). Qed.

(** X13. The names that the command line accepts, the names with a
    configuration and the names with a repository and a file name are the
    same; any other name raises [KeyError] at the tables. *)
Theorem model_names_agree (model_name : string) :
  (model_name ∈ model_name_choices
   <-> exists config, get_h3_config model_name = Ok config)
  /\ (model_name ∈ model_name_choices
      <-> exists loc, checkpoint_location model_name = Ok loc)
  /\ (model_name ∉ model_name_choices ->
      checkpoint_location model_name = Raise (KeyError model_name)).
Proof.
  split; [|split].
  - split; [apply get_h3_config_choice|].
    intros [config H]. by destruct (get_h3_config_Ok _ _ H).
  - split; [apply checkpoint_location_choice|].
    intros [loc H]. destruct (decide (model_name ∈ model_name_choices)); [done|].
    rewrite checkpoint_location_unknown in H; done.
  - apply checkpoint_location_unknown.
Qed.

Section DriverProperties.
Context {T : Type}.
Implicit Types (sd d : gmap string (pyobj T)).



Lemma unwrap_lightning_of_prefixed
    (items : gmap string (pyobj T) -> list string)
    (checkpoint d : gmap string (pyobj T)) :
  enumerates (items (kmap (String.app "model.") d))
             (kmap (String.app "model.") d) ->
  is_Some (checkpoint !! "pytorch-lightning_version") ->
  checkpoint !! "state_dict" = Some (Dict (kmap (String.app "model.") d)) ->
  unwrap_lightning items checkpoint = Ok d.
Proof.
  intros [_ Hitems] Hver Hsd. unfold unwrap_lightning, dict_in.
  rewrite bool_decide_eq_true_2, Hsd by done.
  f_equal. apply map_eq. intros k.
  rewrite strip_model_prefix_lookup by done.
  apply (lookup_kmap (String.app "model.")).
Qed.

(** X16. Unwrapping undoes the prefixing: from any checkpoint that has the
    key ["pytorch-lightning_version"], whatever else it holds, and whose
    ["state_dict"] is a dict [d] with ["model."] put before every key, lines
    98-99 give back [d]. *)
Theorem unwrap_lightning_wrap
    (items : gmap string (pyobj T) -> list string)
    (checkpoint d : gmap string (pyobj T)) :
  enumerates (items (kmap (String.app "model.") d))
             (kmap (String.app "model.") d) ->
  is_Some (checkpoint !! "pytorch-lightning_version") ->
  checkpoint !! "state_dict" = Some (Dict (kmap (String.app "model.") d)) ->
  unwrap_lightning items checkpoint = Ok d.
Proof. apply unwrap_lightning_of_prefixed. Qed.

End DriverProperties.

(** ** The update and the renaming together *)

Section Pipeline.
Context {V : Type}.
Implicit Types (sd mid out : gmap string V) (config : H3Config).

Lemma layer_key_not_h3 l s : startswith (layer_key l s) "h3." = false.
Proof. by rewrite layer_key_unfold. Qed.

Lemma block_key_h3 l s : startswith (block_key l s) "h3." = true.
Proof. by rewrite block_key_unfold. Qed.

Lemma block_key_inj l l' s s' :
  0 <= l -> 0 <= l' ->
  block_key l (String "." s) = block_key l' (String "." s') ->
  l = l' /\ s = s'.
Proof.
  intros Hl Hl' H. rewrite !block_key_unfold in H.
  apply (inj (String.app "h3.blocks.")) in H.
  apply dot_split_inj in H as [H ->]; auto using pretty_Z_no_dot.
  by apply (inj pretty) in H.
Qed.

Lemma block0_norm1_block_key x : block0_norm1 x = block_norm1 0 x.
Proof. destruct x; by vm_compute. Qed.

(** X15. Lines 101-125 on a legacy checkpoint of a model of the tables, with
    whatever other parameters it has, as long as no key starts with
    ["h3."]: the result has, under the names of the destination, the final
    norm with the tensors of [norm2] of the last layer, [norm2] of every
    layer with those of its [norm1], [norm1] of every layer but the first
    with those of [norm2] of the layer before, and [norm1] of the first
    layer with those of ["backbone.ln_0"]. *)
Theorem rewrite_state_dict_legacy
    (keys : gmap string V -> list string) (model_name : string) config sd :
  let L := num_hidden_layers config in
  get_h3_config model_name = Ok config ->
  legacy_layout L sd ->
  (forall k, is_Some (sd !! k) -> startswith k "h3." = false) ->
  (forall d, enumerates (keys d) d) ->
  exists out,
    rewrite_state_dict keys model_name sd = Ok out
    /\ (forall x, out !! final_layernorm x = sd !! norm2 (L - 1) x)
    /\ (forall l x, 0 <= l < L -> out !! block_norm2 l x = sd !! norm1 l x)
    /\ (forall l x, 0 < l < L ->
          out !! block_norm1 l x = sd !! norm2 (l - 1) x)
    /\ (forall x, out !! block_norm1 0 x = sd !! ln_0 x).
Proof.
  intros L Hcfg Hsd Hno Hkeys.
  destruct (get_h3_config_Ok _ _ Hcfg) as (_ & HL & _).
  destruct (reindex_norms_spec L sd HL Hsd)
    as (mid & Hrun & Hf & H2 & H1 & H0 & Hgone & Hframe & _).
  unfold rewrite_state_dict. rewrite Hcfg, bind_Ok.
  rewrite update_state_dict_legacy
    by exact (legacy_layout_ln_0 L sd weight Hsd).
  fold L. rewrite Hrun, bind_Ok.
  assert (forall k, is_Some (mid !! k) -> startswith k "h3." = true ->
          exists y, k = block0_norm1 y) as Hh3.
  { intros k Hk Hpre.
    destruct (decide (k = block0_norm1 weight)) as [->|Hw]; [by eexists|].
    destruct (decide (k = block0_norm1 bias)) as [->|Hb]; [by eexists|].
    rewrite Hframe in Hk.
    - apply Hno in Hk. congruence.
    - intros x. split; [|split].
      + intros ->. by destruct x.
      + intros ->. by destruct x.
      + by destruct x.
    - intros l x Hl. split; intros ->; unfold norm1, norm2 in Hpre;
        by rewrite layer_key_not_h3 in Hpre. }
  destruct (convert_state_dict_sound mid (keys mid) (Hkeys mid))
    as (out & Hout & _).
  destruct (Hkeys mid) as [Hnd Hks].
  assert (forall k0,
            is_Some (mid !! k0) ->
            (forall k, is_Some (mid !! k) ->
               rename_key k = rename_key k0 -> k = k0) ->
            out !! rename_key k0 = mid !! k0) as Huse.
  { intros k0 Hk0 Huniq.
    apply (convert_state_dict_unique k0 (keys mid) mid out);
      [done|by apply Hks| |done].
    intros k Hk. apply Huniq. by apply Hks. }
  assert (forall l s, 0 <= l -> is_Some (mid !! block_key l (String "." s)) ->
            l = 0 /\ exists y, String "." s
                               = match y with
                                 | weight => ".norm1.weight"
                                 | bias => ".norm1.bias"
                                 end) as Hblock.
  { intros l s Hl Hk.
    destruct (Hh3 _ Hk (block_key_h3 _ _)) as [y Hy].
    rewrite block0_norm1_block_key in Hy. unfold block_norm1 in Hy.
    destruct y; apply block_key_inj in Hy as [-> ->]; try done.
    - split; [done|]. by exists weight.
    - split; [done|]. by exists bias. }
  exists out. split; [done|]. split; [|split; [|split]].
  - intros x.
    assert (rename_key (ln_f x) = final_layernorm x) as E by (by destruct x).
    rewrite <-Hf, <-E. apply Huse.
    + rewrite Hf. apply (legacy_layout_norm2 L); [done|lia].
    + intros k Hk Heq. rewrite E in Heq.
      apply rename_key_final_preimage in Heq as [->| ->]; [|done].
      destruct (Hh3 _ Hk) as [y Hy]; [by destruct x|].
      by destruct x, y.
  - intros l x Hl.
    assert (rename_key (norm2 l x) = block_norm2 l x) as E.
    { unfold norm2, block_norm2.
      destruct x; (apply rename_key_layer_key; [lia|done]). }
    rewrite <-H2 by done. rewrite <-E. apply Huse.
    + rewrite H2 by done. by apply (legacy_layout_norm1 L).
    + intros k Hk Heq. rewrite E in Heq. unfold block_norm2, norm2 in *.
      destruct x.
      * assert (k = block_key l ".norm2.weight"
                \/ k = layer_key l ".norm2.weight") as [-> | ->]
          by (apply rename_key_block_key_preimage; [lia|done..]); [|done].
        destruct (Hblock l "norm2.weight" ltac:(lia) Hk) as [_ [[] ?]]; done.
      * assert (k = block_key l ".norm2.bias"
                \/ k = layer_key l ".norm2.bias") as [-> | ->]
          by (apply rename_key_block_key_preimage; [lia|done..]); [|done].
        destruct (Hblock l "norm2.bias" ltac:(lia) Hk) as [_ [[] ?]]; done.
  - intros l x Hl.
    assert (rename_key (norm1 l x) = block_norm1 l x) as E.
    { unfold norm1, block_norm1.
      destruct x; (apply rename_key_layer_key; [lia|done]). }
    rewrite <-H1 by done. rewrite <-E. apply Huse.
    + rewrite H1 by done. apply (legacy_layout_norm2 L); [done|lia].
    + intros k Hk Heq. rewrite E in Heq. unfold block_norm1, norm1 in *.
      destruct x.
      * assert (k = block_key l ".norm1.weight"
                \/ k = layer_key l ".norm1.weight") as [-> | ->]
          by (apply rename_key_block_key_preimage; [lia|done..]); [|done].
        destruct (Hblock l "norm1.weight" ltac:(lia) Hk) as [? _]. lia.
      * assert (k = block_key l ".norm1.bias"
                \/ k = layer_key l ".norm1.bias") as [-> | ->]
          by (apply rename_key_block_key_preimage; [lia|done..]); [|done].
        destruct (Hblock l "norm1.bias" ltac:(lia) Hk) as [? _]. lia.
  - intros x. rewrite <-block0_norm1_block_key, <-H0.
    assert (rename_key (block0_norm1 x) = block0_norm1 x) as E by (by destruct x).
    rewrite <-E at 1. apply Huse.
    + rewrite H0. by apply (legacy_layout_ln_0 L).
    + intros k Hk Heq. rewrite E in Heq.
      apply rename_key_block0_preimage in Heq as [->| ->]; [done|].
      destruct (Hgone x) as [Hx _]. rewrite Hx in Hk. by destruct Hk.
Qed.

End Pipeline.

(** ** The further properties at concrete dicts *)

Section MoreWitnesses.

Lemma convert_state_dict_keys_and_values_witness :
  exists out,
    convert_state_dict (keys_of colliding_example) colliding_example = Ok out
    /\ is_Some (out !! "h3.final_layernorm.weight")
    /\ (size out <= 3)%nat.
Proof.
  destruct (convert_state_dict_keys_and_values colliding_example
              (keys_of colliding_example) (enumerates_keys_of _))
    as (out & Hrun & Hkeys & _ & Hsize).
  exists out. split; [exact Hrun|]. split.
  - apply Hkeys. exists "backbone.ln_f.weight".
    split; [eexists|]; vm_compute; reflexivity.
  - exact Hsize.
Defined.

Lemma convert_state_dict_no_source_names_witness :
  exists out,
    convert_state_dict (keys_of plain_example) plain_example = Ok out
    /\ forall k, is_Some (out !! k) ->
         contains "backbone.embeddings" k = false
         /\ contains "backbone.layers" k = false
         /\ contains "backbone.ln_f" k = false.
Proof.
  apply (convert_state_dict_no_source_names plain_example).
  apply enumerates_keys_of.
Defined.

Lemma convert_state_dict_second_pass_witness :
  exists out,
    convert_state_dict (keys_of plain_example) plain_example = Ok out
    /\ convert_state_dict (keys_of out) out = Ok out.
Proof.
  destruct (convert_state_dict_second_pass plain_example
              (keys_of plain_example) (enumerates_keys_of _))
    as (out & Hrun & Hagain).
  exists out. split; [exact Hrun|]. apply Hagain, enumerates_keys_of.
Defined.

Lemma colliding_example_unique k :
  is_Some (colliding_example !! k) ->
  rename_key k = rename_key "lm_head.weight" -> k = "lm_head.weight".
Proof.
  unfold colliding_example. rewrite dict_of_keys_is_Some, !elem_of_cons.
  intros [->|[->|[->|[]%elem_of_nil]]] H;
    first [reflexivity | by vm_compute in H].
Qed.

Lemma convert_state_dict_unique_key_witness :
  exists out,
    convert_state_dict (keys_of colliding_example) colliding_example = Ok out
    /\ out !! "lm_head.weight" = Some "lm_head.weight".
Proof.
  destruct (convert_state_dict_unique_key colliding_example
              (keys_of colliding_example) "lm_head.weight")
    as (out & Hrun & Hout).
  - apply enumerates_keys_of.
  - eexists. vm_compute. reflexivity.
  - apply colliding_example_unique.
  - exists out. split; [exact Hrun|]. exact Hout.
Defined.

Lemma rename_key_prefixes_witness :
  rename_key ("backbone.layers." +:+ "3.mixer.kernel.B")
  = "h3.blocks." +:+ "3.mixer.kernel.B"
  /\ rename_key ("backbone.ln_f" +:+ "3.mixer.kernel.B")
     = "h3.final_layernorm" +:+ "3.mixer.kernel.B"
  /\ rename_key ("backbone.embeddings" +:+ "3.mixer.kernel.B")
     = "h3.embeddings" +:+ "3.mixer.kernel.B".
Proof. apply (rename_key_prefixes "3.mixer.kernel.B"). reflexivity. Defined.

Lemma rename_key_layer_norms_witness :
  rename_key (norm1 11 bias) = block_norm1 11 bias
  /\ rename_key (norm2 11 bias) = block_norm2 11 bias
  /\ rename_key (ln_f bias) = final_layernorm bias
  /\ rename_key (block0_norm1 bias) = block_norm1 0 bias.
Proof. apply (rename_key_layer_norms 11 bias). lia. Defined.

Lemma rename_key_embeddings_first_witness :
  rename_key "backbone.embeddings.backbone.layers.0"
  = "h3.embeddings.h3.layers.0".
Proof.
  destruct (rename_key_embeddings_first "backbone.embeddings.backbone.layers.0")
    as [H _]; [reflexivity|].
  rewrite H. vm_compute. reflexivity.
Defined.

Lemma rename_key_layer_norm_preimage_witness :
  "backbone.layers.3.norm2.weight" = block_norm2 3 weight
  \/ "backbone.layers.3.norm2.weight" = norm2 3 weight.
Proof.
  destruct (rename_key_layer_norm_preimage 3 weight
              "backbone.layers.3.norm2.weight") as (_ & H & _); [lia|].
  apply H. vm_compute. reflexivity.
Defined.

Lemma legacy_with_head_layout : legacy_layout 2 legacy_with_head.
Proof.
  unfold legacy_with_head. split.
  - intros l x Hl. rewrite !lookup_insert_ne by key_neq. split.
    + by apply (legacy_layout_norm1 _ _ _ _ (legacy_example_layout 2)).
    + by apply (legacy_layout_norm2 _ _ _ _ (legacy_example_layout 2)).
  - intros x. rewrite lookup_insert_ne by key_neq.
    apply (legacy_layout_ln_0 _ _ _ (legacy_example_layout 2)).
Qed.

Lemma lm_head_not_legacy L : ~ is_legacy_key L "lm_head.weight".
Proof. intros [[x H]|(l & x & Hl & [H|H])]; revert H; key_neq. Qed.

Lemma update_state_dict_frame_witness :
  exists out,
    update_state_dict config_two_layers legacy_with_head = Ok out
    /\ out !! "lm_head.weight" = Some "lm_head.weight"
    /\ out !! ln_0 weight = None.
Proof.
  destruct (update_state_dict_frame config_two_layers legacy_with_head)
    as (out & Hrun & Hframe & Hgone & _).
  - reflexivity.
  - apply legacy_with_head_layout.
  - exists out. split; [exact Hrun|]. split.
    + rewrite Hframe.
      * vm_compute. reflexivity.
      * apply lm_head_not_legacy.
      * intros []; split; discriminate.
    + apply (Hgone weight).
Defined.

Lemma update_state_dict_returns_iff_witness :
  (exists out, update_state_dict config_two_layers (legacy_example 2) = Ok out)
  <-> legacy_layout 2 (legacy_example 2).
Proof.
  apply (update_state_dict_returns_iff config_two_layers (legacy_example 2)).
  - reflexivity.
  - eexists. vm_compute. reflexivity.
Defined.

Lemma update_state_dict_raises_witness :
  exists k,
    KeyError "backbone.ln_0.bias" = KeyError k
    /\ legacy_example_no_bias 12 !! k = None
    /\ is_legacy_key 12 k.
Proof.
  apply (update_state_dict_raises config_125m (legacy_example_no_bias 12)).
  - reflexivity.
  - vm_compute. reflexivity.
Defined.

Lemma get_h3_config_well_formed_witness :
  0 < num_hidden_layers config_125m
  /\ Forall (fun i => 0 <= i < num_hidden_layers config_125m)
            (attn_layer_idx config_125m)
  /\ 0 < num_attention_heads config_125m
  /\ (hidden_size config_125m) `mod` (num_attention_heads config_125m) = 0.
Proof. apply (get_h3_config_well_formed "H3-125m"). reflexivity. Defined.

Lemma model_names_agree_witness :
  checkpoint_location "H3-6.7b" = Raise (KeyError "H3-6.7b").
Proof.
  apply (model_names_agree "H3-6.7b").
  unfold model_name_choices. rewrite !not_elem_of_cons.
  repeat split; try discriminate. apply not_elem_of_nil.
Defined.


Lemma unwrap_lightning_wrap_witness :
  is_Some (trainer_checkpoint !! "epoch")
  /\ unwrap_lightning keys_of trainer_checkpoint = Ok plain_tensors.
Proof.
  split; [by eexists|].
  apply unwrap_lightning_wrap.
  - apply enumerates_keys_of.
  - by eexists.
  - reflexivity.
Defined.

Lemma legacy_key_not_h3 L k : is_legacy_key L k -> startswith k "h3." = false.
Proof.
  intros [[x ->]|(l & x & Hl & [->| ->])].
  - by destruct x.
  - unfold norm1. apply layer_key_not_h3.
  - unfold norm2. apply layer_key_not_h3.
Qed.

Lemma rewrite_state_dict_legacy_witness :
  exists out,
    rewrite_state_dict keys_of "H3-125m" (legacy_example 12) = Ok out
    /\ out !! final_layernorm weight = Some (norm2 11 weight)
    /\ out !! block_norm2 5 bias = Some (norm1 5 bias)
    /\ out !! block_norm1 5 weight = Some (norm2 4 weight)
    /\ out !! block_norm1 0 bias = Some (ln_0 bias).
Proof.
  destruct (rewrite_state_dict_legacy keys_of "H3-125m" config_125m
              (legacy_example 12))
    as (out & Hrun & Hf & H2 & H1 & H0).
  - reflexivity.
  - apply (legacy_example_layout 12).
  - intros k Hk. apply (legacy_key_not_h3 12), (legacy_example_keys 12), Hk.
  - intros d. apply enumerates_keys_of.
  - exists out. split; [exact Hrun|]. split; [|split; [|split]].
    + rewrite Hf. vm_compute. reflexivity.
    + rewrite H2 by (simpl; lia). vm_compute. reflexivity.
    + rewrite H1 by (simpl; lia). vm_compute. reflexivity.
    + rewrite H0. vm_compute. reflexivity.
Defined.

End MoreWitnesses.

(** ** Colliding keys, and the wrapper seen from the driver *)

Section Collisions.
Context {V : Type}.
Implicit Types (sd D out : gmap string V) (ks : list string).

(** While [k] is still to come it keeps its value; once it has been visited
    its value sits under [rename_key k], also when that key is visited
    later. *)
Lemma convert_state_dict_overwrites_loop k (v : option V) ks : forall D out,
  NoDup ks ->
  rename_key k <> k ->
  (forall k', k' ∈ ks -> rename_key k' = rename_key k ->
     k' = k \/ k' = rename_key k) ->
  (if bool_decide (k ∈ ks) then D !! k = v else D !! rename_key k = v) ->
  convert_state_dict ks D = Ok out ->
  out !! rename_key k = v.
Proof.
  induction ks as [|key ks IH]; intros D out Hnd Hne Hpre HD Hrun.
  { injection Hrun as <-. by rewrite bool_decide_eq_false_2 in HD
      by apply not_elem_of_nil. }
  apply NoDup_cons in Hnd as [Hkey Hnd].
  cbn [convert_state_dict] in Hrun. unfold pop in Hrun.
  destruct (D !! key) as [w|] eqn:Hw; [|done].
  rewrite bind_Ok in Hrun.
  apply (IH _ out Hnd Hne) in Hrun; [done|intros k' Hk'; apply Hpre; by right|].
  destruct (decide (key = k)) as [->|Hkk].
  - rewrite bool_decide_eq_true_2 in HD by left.
    rewrite bool_decide_eq_false_2 by done.
    rewrite lookup_insert_eq. congruence.
  - assert (rename_key key <> k) as Hrk.
    { intros Heq. apply Hne. rewrite <-Heq. apply rename_key_twice. }
    rewrite (bool_decide_ext (k ∈ key :: ks) (k ∈ ks)) in HD
      by (rewrite elem_of_cons; split; [intros [?|?]; [congruence|done]|by right]).
    case_bool_decide.
    + by rewrite lookup_insert_ne, lookup_delete_ne.
    + destruct (decide (rename_key key = rename_key k)) as [Heq|Hneq].
      * destruct (Hpre key ltac:(left) Heq) as [?|HkK]; [done|].
        rewrite Heq, lookup_insert_eq. rewrite HkK in Hw. congruence.
      * rewrite lookup_insert_ne by done.
        rewrite lookup_delete_ne; [done|].
        intros ->. apply Hneq. apply rename_key_twice.
Qed.

(** X17. When a key [k] that is renamed and the key it is renamed to are
    both in the dict, and no third key is renamed there, the result has the
    value of [k] under the renamed key, in any order of the keys: the value
    that was under the renamed key is lost. *)
Theorem convert_state_dict_overwrites sd ks k :
  enumerates ks sd ->
  is_Some (sd !! k) ->
  rename_key k <> k ->
  (forall k', is_Some (sd !! k') -> rename_key k' = rename_key k ->
     k' = k \/ k' = rename_key k) ->
  exists out,
    convert_state_dict ks sd = Ok out /\ out !! rename_key k = sd !! k.
Proof.
  intros Hks Hk Hne Hpre.
  destruct (convert_state_dict_sound sd ks Hks) as (out & Hrun & _).
  destruct Hks as [Hnd Hks].
  exists out. split; [done|].
  apply (convert_state_dict_overwrites_loop k (sd !! k) ks sd out);
    [done|done| | |done].
  - intros k' Hk'. apply Hpre. by apply Hks.
  - rewrite bool_decide_eq_true_2; [done|]. by apply Hks.
Qed.

End Collisions.

Section Wrapper.
Context {T : Type}.

(** X18. What the driver hands to the update and the renaming, for a model
    of the tables: the loaded dict as it is when it has no
    ["pytorch-lightning_version"]; for any Lightning checkpoint, whatever
    else it holds, the entries of its ["state_dict"] under ["model."] with
    the prefix taken off; so the dict [d] itself when the ["state_dict"] is
    [d] with ["model."] before every key. *)
Theorem convert_h3_state_dict_unwraps
    (fetch : string -> string -> result (gmap string (pyobj T)))
    (items keys : gmap string (pyobj T) -> list string)
    (model_name repo_id filename : string)
    (loaded : gmap string (pyobj T)) :
  checkpoint_location model_name = Ok (repo_id, filename) ->
  (forall d, enumerates (items d) d) ->
  fetch repo_id filename = Ok loaded ->
  (loaded !! "pytorch-lightning_version" = None ->
   convert_h3_state_dict fetch items keys model_name
   = rewrite_state_dict keys model_name loaded)
  /\ (is_Some (loaded !! "pytorch-lightning_version") ->
      forall inner, loaded !! "state_dict" = Some (Dict inner) ->
      exists sd,
        (forall k, sd !! k = inner !! ("model." +:+ k))
        /\ convert_h3_state_dict fetch items keys model_name
           = rewrite_state_dict keys model_name sd)
  /\ (is_Some (loaded !! "pytorch-lightning_version") ->
      forall d,
      loaded !! "state_dict" = Some (Dict (kmap (String.app "model.") d)) ->
      convert_h3_state_dict fetch items keys model_name
      = rewrite_state_dict keys model_name d).
Proof.
  intros Hloc Hitems Hfetch. unfold convert_h3_state_dict.
  rewrite Hloc, bind_Ok, Hfetch, bind_Ok. split; [|split].
  - intros Hplain. unfold unwrap_lightning, dict_in.
    rewrite bool_decide_eq_false_2; [done|]. rewrite Hplain. by intros [? ?].
  - intros Hver inner Hsd.
    exists (strip_model_prefix (items inner) inner). split.
    + intros k. apply strip_model_prefix_lookup, Hitems.
    + unfold unwrap_lightning, dict_in.
      by rewrite bool_decide_eq_true_2, Hsd by done.
  - intros Hver d Hsd.
    by rewrite (unwrap_lightning_of_prefixed items loaded d).
Qed.

End Wrapper.

Section CollisionWitnesses.

Lemma colliding_example_preimages k' :
  is_Some (colliding_example !! k') ->
  rename_key k' = rename_key "backbone.ln_f.weight" ->
  k' = "backbone.ln_f.weight" \/ k' = rename_key "backbone.ln_f.weight".
Proof.
  unfold colliding_example. rewrite dict_of_keys_is_Some, !elem_of_cons.
  intros [->|[->|[->|[]%elem_of_nil]]] H.
  - by left.
  - by right.
  - by vm_compute in H.
Qed.

Lemma convert_state_dict_overwrites_witness :
  exists out,
    convert_state_dict (keys_of colliding_example) colliding_example = Ok out
    /\ out !! "h3.final_layernorm.weight" = Some "backbone.ln_f.weight".
Proof.
  destruct (convert_state_dict_overwrites colliding_example
              (keys_of colliding_example) "backbone.ln_f.weight")
    as (out & Hrun & Hout).
  - apply enumerates_keys_of.
  - eexists. vm_compute. reflexivity.
  - discriminate.
  - apply colliding_example_preimages.
  - exists out. split; [exact Hrun|]. exact Hout.
Defined.

Lemma convert_h3_state_dict_unwraps_witness :
  is_Some (trainer_checkpoint !! "optimizer_states")
  /\ convert_h3_state_dict fetch_wrapped keys_of keys_of "H3-125m"
     = rewrite_state_dict keys_of "H3-125m" plain_tensors.
Proof.
  split; [by eexists|].
  destruct (convert_h3_state_dict_unwraps fetch_wrapped keys_of keys_of
              "H3-125m" "danfu09/H3-125M" "model.pt" trainer_checkpoint)
    as (_ & _ & H).
  - reflexivity.
  - intros d. apply enumerates_keys_of.
  - reflexivity.
  - apply H; [by eexists|reflexivity].
Defined.

End CollisionWitnesses.
